(** * python-flamegraph: the sampling core of [flamegraph/flamegraph.py]

    A shallow embedding of the stack formatter ([extract_stack],
    [create_flamegraph_entry], [Sampler._format_frame], [Sampler._sample]),
    of the two samplers ([ProfileThread], [Sampler]), of the
    [collections.defaultdict(int)] they count in and of the two result
    serialisations, followed by the properties proved about them.

    Conventions.
    - A Python [str] is a [string]; [''.join] and [';'.join] are
      [String.concat].
    - A Python [int] is a [Z]; ['%d'] and ['{}'] print it in decimal.
    - The dictionaries of a frame ([f_globals], [f_locals]) are only
      tested for membership and read, so they are finite maps.  The
      counting dictionaries are iterated, so they keep insertion order.
    - Exceptions are values of [exn]; a call returns the state it leaves
      behind together with an [outcome].
    - What the host provides is passed in: the frames, the snapshots of
      [sys._current_frames()], the time, whether the caller is the main
      thread, and the [re] and [float] operations.

    [start_profile_thread] and [main] are left out: what they add, the
    start of the sampler's thread and the run of the profiled script,
    happens in the host. *)

From Stdlib Require Import ZArith String Ascii List Sorted Permutation Lia.
From Stdlib Require Import DecimalString DecimalZ.
From stdpp Require Import gmap strings.
Import ListNotations.

Set Warnings "-register-all,-clear-no-such-hyp".
Local Open Scope Z_scope.
Local Open Scope list_scope.

(** ** Python values the profiler looks at *)

(** A class object, as far as it is used: its [__name__]. *)
Record pyclass := PyClass { cls_name : string }.

(** Any Python object bound to a local variable.  The formatter asks for
    its class in two ways: [type(o)] and the attribute [o.__class__].
    They agree for an ordinary instance; they differ for an object that
    overrides [__class__] (a proxy, a mock) and, on Python 2, for an
    instance of an old-style class, whose [type] is [instance]. *)
Record pyobject := PyObject {
  ob_type : pyclass;      (* type(o) *)
  ob_class : pyclass      (* o.__class__ *)
}.

(** A code object: [co_name]. *)
Record code := Code { co_name : string }.

(** A frame object.  [f_globals] is read at ['__name__'] only, which holds
    a [str]; [f_locals] is read at ['self'] only.  [f_back] is the caller,
    [None] at the root. *)
Inductive frame := Frame {
  f_globals : gmap string string;
  f_locals : gmap string pyobject;
  f_code : code;
  f_back : option frame
}.

(** The frames reached from [f] through [f_back], [f] first, root last. *)
Fixpoint callers (f : frame) : list frame :=
  f :: match f_back f with
       | None => []
       | Some b => callers b
       end.

(** ** The stack formatter *)

(** [''.join(parts)] *)
Definition join_parts (parts : list string) : string := String.concat "" parts.

(** The body of the loop of [extract_stack], lines 22-32: the label of one
    frame.  [add] is [parts.append]. *)
Definition frame_label (f : frame) : string :=
  let parts : list string := [] in
  let parts :=
    match f_globals f !! "__name__" with
    | Some name => parts ++ [name] ++ [":"]
    | None => parts
    end in
  let parts :=
    match f_locals f !! "self" with
    | Some self => parts ++ [cls_name (ob_class self)] ++ ["."]
    | None => parts
    end in
  let parts := parts ++ [co_name (f_code f)] in
  join_parts parts.

(** The [while f is not None] loop of [extract_stack], entered at a frame,
    with the list [lst] built so far. *)
Fixpoint extract_stack_loop (f : frame) (lst : list string) : list string :=
  let lst := lst ++ [frame_label f] in
  match f_back f with
  | None => lst
  | Some b => extract_stack_loop b lst
  end.

Definition extract_stack (f : option frame) : list string :=
  let lst :=
    match f with
    | None => []
    | Some f => extract_stack_loop f []
    end in
  rev lst.

(** [thread_id] and [collapse_recursion] are accepted and not used. *)
Definition create_flamegraph_entry
    (thread_id : Z) (frame : option frame) (collapse_recursion : bool) : string :=
  String.concat ";" (extract_stack frame).

(** ** Exceptions and effects *)

Inductive exn :=
  | ValueError (msg : string)
  | RuntimeError (msg : string)
  | ReError (msg : string).

Inductive outcome (A : Type) :=
  | Returned (a : A)
  | Raised (e : exn).
Arguments Returned {A} a.
Arguments Raised {A} e.

(** A call on a state [St]: the state it leaves and how it ended.  What
    was assigned before an exception stays assigned. *)
Definition Py (St A : Type) : Type := St → St * outcome A.

Definition ret {St A} (a : A) : Py St A := λ s, (s, Returned a).
Definition raise {St A} (e : exn) : Py St A := λ s, (s, Raised e).
Definition bind {St A B} (m : Py St A) (k : A → Py St B) : Py St B :=
  λ s, match m s with
       | (s', Returned a) => k a s'
       | (s', Raised e) => (s', Raised e)
       end.
Definition modify {St} (f : St → St) : Py St unit := λ s, (f s, Returned tt).
Definition gets {St A} (f : St → A) : Py St A := λ s, (s, Returned (f s)).

Notation "x ←ₚ m ;; k" := (bind m (λ x, k))
  (at level 100, m at next level, right associativity, only parsing).
Notation "m ;;ₚ k" := (bind m (λ _, k))
  (at level 100, right associativity, only parsing).

(** [for x in xs: body(x)] *)
Fixpoint for_each {St A} (xs : list A) (body : A → Py St unit) : Py St unit :=
  match xs with
  | [] => ret tt
  | x :: xs' => body x ;;ₚ for_each xs' body
  end.

(** Run a call on a component [get s] of the state and store it back. *)
Definition zoom {St T A} (get : St → T) (set : T → St → St) (m : Py T A) : Py St A :=
  λ s, let (t', r) := m (get s) in (set t' s, r).

Definition state_of {St A} (r : St * outcome A) : St := fst r.
Definition outcome_of {St A} (r : St * outcome A) : outcome A := snd r.

(** ** Text *)

Definition nl : string := String "010"%char "".

(** ['%d' % n] and ['{}'.format(n)] for an [int]. *)
Definition fmt_d (n : Z) : string := NilZero.string_of_int (Z.to_int n).

(** ['%s %d\n' % (key, count)] *)
Definition stat_line (key : string) (count : Z) : string :=
  key +:+ " " +:+ fmt_d count +:+ nl.

(** ['{} {}'.format(frame, count)] *)
Definition stat_entry (frame : string) (count : Z) : string :=
  frame +:+ " " +:+ fmt_d count.

(** [s.split(sep)] for a one-character separator. *)
Fixpoint split (sep : ascii) (s : string) : list string :=
  match s with
  | EmptyString => [EmptyString]
  | String c s' =>
      if Ascii.eqb c sep then EmptyString :: split sep s'
      else match split sep s' with
           | [] => [String c EmptyString]
           | w :: ws => String c w :: ws
           end
  end.

(** [c in s] *)
Fixpoint contains (c : ascii) (s : string) : bool :=
  match s with
  | EmptyString => false
  | String c' s' => Ascii.eqb c' c || contains c s'
  end.

Definition semicolon : ascii := ";"%char.

(** ** [sorted]

    Python's [sorted] is stable, and with [reverse=True] equal elements
    still keep their order.  For a total preorder a stable sort has one
    possible result, so a stable insertion sort stands for it. *)
Section Sorting.
Context {A : Type} (le : A → A → bool).

Fixpoint insert_sorted (x : A) (l : list A) : list A :=
  match l with
  | [] => [x]
  | y :: l' => if le x y then x :: l else y :: insert_sorted x l'
  end.

Definition sort_with (l : list A) : list A := foldr insert_sorted [] l.
End Sorting.

(** [sorted(l, key=key, reverse=reverse)] for keys ordered by [lek]. *)
Definition sorted {A K} (lek : K → K → bool) (key : A → K) (reverse : bool)
    (l : list A) : list A :=
  sort_with (λ x y, if reverse then lek (key y) (key x) else lek (key x) (key y)) l.

(** ** [collections.defaultdict(int)]

    Entries in insertion order, one per key. *)
Module Dict.
Definition t := list (string * Z).

Definition empty : t := [].

Fixpoint get (d : t) (k : string) : option Z :=
  match d with
  | [] => None
  | (k', v) :: d' => if String.eqb k' k then Some v else get d' k
  end.

(** [d[k]], read: the count, or what [int()] gives for a missing key. *)
Definition getitem (d : t) (k : string) : Z := default 0 (get d k).

(** [d[k] = v]: in place for a key that is there, else at the end. *)
Fixpoint setitem (d : t) (k : string) (v : Z) : t :=
  match d with
  | [] => [(k, v)]
  | (k', v') :: d' =>
      if String.eqb k' k then (k', v) :: d' else (k', v') :: setitem d' k v
  end.

(** [d[k] += 1] *)
Definition incr (k : string) (d : t) : t := setitem d k (getitem d k + 1).

Definition keys (d : t) : list string := map fst d.
Definition values (d : t) : list Z := map snd d.
Definition items (d : t) : list (string * Z) := d.
Definition len (d : t) : Z := Z.of_nat (length d).

(** One entry per key. *)
Definition wf (d : t) : Prop := NoDup (keys d).
End Dict.

(** [sum(xs)] *)
Definition sum (xs : list Z) : Z := fold_left Z.add xs 0.

(** ** File objects

    An output sink is the log of what was done to it.  Writing to a closed
    file raises [ValueError]; closing again is allowed. *)
Inductive fd_op :=
  | FdWrite (s : string)
  | FdClose.

Definition file := list fd_op.

Definition is_close (op : fd_op) : bool :=
  match op with FdClose => true | FdWrite _ => false end.

Definition closed (fd : file) : bool := existsb is_close fd.

Definition fd_write (s : string) : Py file unit :=
  λ fd, if closed fd
        then (fd, Raised (ValueError "I/O operation on closed file."))
        else (fd ++ [FdWrite s], Returned tt).

Definition fd_close : Py file unit := λ fd, (fd ++ [FdClose], Returned tt).

(** The text a file received. *)
Fixpoint contents (fd : file) : string :=
  match fd with
  | [] => ""
  | FdWrite s :: fd' => s +:+ contents fd'
  | FdClose :: fd' => contents fd'
  end.

(** How many times [close] was called. *)
Definition close_calls (fd : file) : nat := length (List.filter is_close fd).

(** ** The host runtime *)

(** [re]: compiled patterns, [re.compile] and [pattern.search] (the
    truth value of its result). *)
Class Regex := {
  pattern : Type;
  re_compile : string → exn + pattern;
  re_search : pattern → string → bool
}.

(** [float]: the difference of two times and ['{}'.format] of one. *)
Class Float := {
  pyfloat : Type;
  float_sub : pyfloat → pyfloat → pyfloat;
  float_str : pyfloat → string
}.

(** ** [class ProfileThread(threading.Thread)]: the polling sampler *)
Module ProfileThread.
Section WithHost.
Context {re : Regex} {fl : Float}.

(** The attributes of an instance.  [_lock] has no field: the one block
    it guards, the body of [_write_results], is a single call here.
    [_started] is the attribute of [threading.Thread] that tells whether
    [start] was called: [Thread.__init__] clears it, [Thread.start] sets
    it, [Thread.join] reads it. *)
Record t := Build {
  _fd : file;
  _written : bool;
  _interval : pyfloat;
  _collapse_recursion : bool;
  _filter : option pattern;
  _stats : Dict.t;
  _keeprunning : bool;
  _stopevent : bool;
  _started : bool
}.

Definition set_fd (fd : file) (self : t) : t :=
  Build fd (_written self) (_interval self) (_collapse_recursion self)
        (_filter self) (_stats self) (_keeprunning self) (_stopevent self)
        (_started self).
Definition set_written (b : bool) (self : t) : t :=
  Build (_fd self) b (_interval self) (_collapse_recursion self)
        (_filter self) (_stats self) (_keeprunning self) (_stopevent self)
        (_started self).
Definition set_stats (d : Dict.t) (self : t) : t :=
  Build (_fd self) (_written self) (_interval self) (_collapse_recursion self)
        (_filter self) d (_keeprunning self) (_stopevent self) (_started self).
Definition set_keeprunning (b : bool) (self : t) : t :=
  Build (_fd self) (_written self) (_interval self) (_collapse_recursion self)
        (_filter self) (_stats self) b (_stopevent self) (_started self).
Definition set_stopevent (b : bool) (self : t) : t :=
  Build (_fd self) (_written self) (_interval self) (_collapse_recursion self)
        (_filter self) (_stats self) (_keeprunning self) b (_started self).
(** What [Thread.start] assigns. *)
Definition set_started (b : bool) (self : t) : t :=
  Build (_fd self) (_written self) (_interval self) (_collapse_recursion self)
        (_filter self) (_stats self) (_keeprunning self) (_stopevent self) b.

(** [__init__].  Its first statement, [threading.Thread.__init__], leaves
    the thread not started.  [re.compile] may raise.  The last statement,
    [atexit.register(self.stop)], makes the interpreter call [stop] once
    more when it exits. *)
Definition __init__ (fd : file) (interval : pyfloat) (filter : option string)
    (collapse_recursion : bool) : outcome t :=
  let compiled :=
    match filter with
    | Some f =>
        match re_compile f with
        | inl e => Raised e
        | inr p => Returned (Some p)
        end
    | None => Returned None
    end in
  match compiled with
  | Raised e => Raised e
  | Returned flt =>
      Returned (Build fd false interval collapse_recursion flt Dict.empty true false false)
  end.

(** [self._filter is None or self._filter.search(entry)] *)
Definition filter_accepts (self : t) (entry : string) : bool :=
  match _filter self with
  | None => true
  | Some p => re_search p entry
  end.

(** The body of the [for] loop of [run] for one item of
    [sys._current_frames()].  [time.sleep] changes nothing here. *)
Definition observe (my_thread : Z) (item : Z * frame) (self : t) : t :=
  let '(thread_id, frame) := item in
  if Z.eqb thread_id my_thread then self
  else
    let entry :=
      create_flamegraph_entry thread_id (Some frame) (_collapse_recursion self) in
    if filter_accepts self entry
    then set_stats (Dict.incr entry (_stats self)) self
    else self.

(** One pass of the [while] loop over a snapshot of the live threads. *)
Definition run_iteration (my_thread : Z) (snapshot : list (Z * frame)) (self : t) : t :=
  fold_left (λ s item, observe my_thread item s) snapshot self.

Definition _write_results : Py t unit :=
  λ self,
    if _written self then ret tt self
    else
      (modify (set_written true) ;;ₚ
       zoom _fd set_fd
         (for_each (sorted String.leb id false (Dict.keys (_stats self)))
            (λ key, fd_write (stat_line key (Dict.getitem (_stats self) key))) ;;ₚ
          fd_close)) self.

(** The passes the loop of [run] makes over the snapshots
    [sys._current_frames()] has returned to it so far, one snapshot for
    each pass. *)
Fixpoint run_loop (my_thread : Z) (snapshots : list (list (Z * frame))) (self : t) : t :=
  match snapshots with
  | [] => self
  | snapshot :: rest =>
      if _keeprunning self
      then run_loop my_thread rest (run_iteration my_thread snapshot self)
      else self
  end.

(** [run].  The loop is left only when [_keeprunning] is found cleared,
    which another thread has to do, and the results are written after it.
    A call that has used up the snapshots given and still finds
    [_keeprunning] set has not returned: that is [None]. *)
Definition run (my_thread : Z) (snapshots : list (list (Z * frame))) (self : t)
    : option (t * outcome unit) :=
  let self := run_loop my_thread snapshots self in
  if _keeprunning self then None else Some (_write_results self).

Definition num_frames (self : t) (unique : bool) : Z :=
  if unique then Dict.len (_stats self) else sum (Dict.values (_stats self)).

(** [self.join()], called from the sampler's own thread or from another.
    [Thread.join] raises [RuntimeError] for a thread that was never started
    and for the calling thread itself; otherwise it waits until [run] has
    returned and assigns nothing. *)
Definition join (own_thread : bool) : Py t unit :=
  λ self,
    if negb (_started self)
    then raise (RuntimeError "cannot join thread before it is started") self
    else if own_thread
    then raise (RuntimeError "cannot join current thread") self
    else ret tt self.

(** [stop], called from the sampler's own thread or from another. *)
Definition stop (own_thread : bool) : Py t unit :=
  modify (set_keeprunning false) ;;ₚ
  modify (set_stopevent true) ;;ₚ
  _write_results ;;ₚ
  join own_thread.
End WithHost.
Arguments t {re fl}.
End ProfileThread.

(** [n] calls of [m], one after the other, each made whatever the one
    before did (an explicit call, the finaliser, the exit hook). *)
Fixpoint invocations {St A} (n : nat) (m : Py St A) (s : St) : St * list (outcome A) :=
  match n with
  | O => (s, [])
  | S n' =>
      let (s', r) := m s in
      let (s'', rs) := invocations n' m s' in
      (s'', r :: rs)
  end.

(** ** [class Sampler(object)]: the signal-driven sampler *)
Module Sampler.
Section WithHost.
Context {fl : Float}.

Record t := Build {
  interval : pyfloat;
  _started : option pyfloat;
  _stack_counts : Dict.t
}.

(** What the process holds for the sampler: the handler of [SIGVTALRM],
    the virtual interval timer ([None] when disarmed, else the delay and
    the period), the functions registered with [atexit], and what was
    printed. *)
Inductive sighandler := SIG_DFL | BoundSample.
Inductive exit_hook := BoundStop.

Record process := Process {
  sigvtalrm : sighandler;
  itimer_virtual : option (pyfloat * pyfloat);
  atexit_hooks : list exit_hook;
  stdout : list string
}.

Record world := World { self : t; proc : process }.

Definition set_self (s : t) (w : world) : world := World s (proc w).
Definition set_proc (p : process) (w : world) : world := World (self w) p.

Definition set_started (v : option pyfloat) (s : t) : t :=
  Build (interval s) v (_stack_counts s).
Definition set_stack_counts (d : Dict.t) (s : t) : t :=
  Build (interval s) (_started s) d.

(** [signal.signal(signal.SIGVTALRM, handler)]: only the main thread may
    set a handler; elsewhere it raises [ValueError]. *)
Definition signal_signal (on_main_thread : bool) (h : sighandler) : Py process unit :=
  if on_main_thread
  then modify (λ p, Process h (itimer_virtual p) (atexit_hooks p) (stdout p))
  else raise (ValueError "signal only works in main thread").

(** [signal.setitimer(signal.ITIMER_VIRTUAL, seconds, interval)] *)
Definition setitimer (v : option (pyfloat * pyfloat)) : Py process unit :=
  modify (λ p, Process (sigvtalrm p) v (atexit_hooks p) (stdout p)).

Definition atexit_register (h : exit_hook) : Py process unit :=
  modify (λ p, Process (sigvtalrm p) (itimer_virtual p) (atexit_hooks p ++ [h]) (stdout p)).

Definition print (line : string) : Py process unit :=
  modify (λ p, Process (sigvtalrm p) (itimer_virtual p) (atexit_hooks p) (stdout p ++ [line])).

(** [try: m  except ValueError: raise ValueError(msg)] *)
Definition reraise_ValueError {St A} (m : Py St A) (msg : string) : Py St A :=
  λ s, match m s with
       | (s', Raised (ValueError _)) => (s', Raised (ValueError msg))
       | r => r
       end.

Definition __init__ (interval : pyfloat) : t := Build interval None Dict.empty.

(** [start], called at time [now] from the main thread or from another. *)
Definition start (on_main_thread : bool) (now : pyfloat) : Py world unit :=
  modify (λ w, set_self (set_started (Some now) (self w)) w) ;;ₚ
  reraise_ValueError
    (zoom proc set_proc (signal_signal on_main_thread BoundSample))
    "Can only sample on the main thread" ;;ₚ
  i ←ₚ gets (λ w, interval (self w)) ;;
  zoom proc set_proc (print ("interval: " +:+ float_str i)) ;;ₚ
  zoom proc set_proc (setitimer (Some (i, i))) ;;ₚ
  zoom proc set_proc (atexit_register BoundStop).

(** The statement after the first [return] is never reached. *)
Definition _format_frame (frame : frame) : string :=
  let f := frame in
  let parts : list string := [] in
  let parts :=
    match f_globals f !! "__name__" with
    | Some name => parts ++ [name] ++ [":"]
    | None => parts
    end in
  let parts :=
    match f_locals f !! "self" with
    | Some self => parts ++ [cls_name (ob_type self)] ++ ["."]
    | None => parts
    end in
  let parts := parts ++ [co_name (f_code f)] in
  join_parts parts.

(** The [while frame is not None] loop of [_sample]. *)
Fixpoint _sample_loop (frame : frame) (stack : list string) : list string :=
  let stack := stack ++ [_format_frame frame] in
  match f_back frame with
  | None => stack
  | Some b => _sample_loop b stack
  end.

(** The value of [stack] when [_sample] uses it as a key. *)
Definition _sample_key (frame : option frame) : string :=
  let stack :=
    match frame with
    | None => []
    | Some f => _sample_loop f []
    end in
  String.concat ";" (rev stack).

Definition _sample (signum : Z) (frame : option frame) (s : t) : t :=
  let stack := _sample_key frame in
  set_stack_counts (Dict.incr stack (_stack_counts s)) s.

(** [sorted(self._stack_counts.items(), key=lambda kv: kv[1], reverse=True)] *)
Definition ordered_stacks (s : t) : list (string * Z) :=
  sorted Z.leb snd true (Dict.items (_stack_counts s)).

(** [output_stats], called at time [now]. *)
Definition output_stats (now : pyfloat) (s : t) : string :=
  match _started s with
  | None => ""
  | Some started =>
      let elapsed := float_sub now started in
      let lines := ["elapsed " +:+ float_str elapsed;
                    "granularity " +:+ float_str (interval s)] in
      let lines :=
        lines ++ map (λ '(frame, count), stat_entry frame count) (ordered_stacks s) in
      String.concat nl lines +:+ nl
  end.

Definition reset (now : pyfloat) (s : t) : t := Build (interval s) (Some now) Dict.empty.

Definition stop : Py world unit :=
  zoom proc set_proc (print "profiling stopped") ;;ₚ
  zoom proc set_proc (setitimer None).

Definition __del__ : Py world unit := stop.

Definition write_results (s : t) : Py file unit :=
  for_each (sorted String.leb id false (Dict.keys (_stack_counts s)))
    (λ key, fd_write (stat_line key (Dict.getitem (_stack_counts s) key))).

Definition num_frames (s : t) (unique : bool) : Z :=
  if unique then Dict.len (_stack_counts s) else sum (Dict.values (_stack_counts s)).
End WithHost.
Arguments t {fl}.
Arguments process {fl}.
Arguments world {fl}.
End Sampler.

(** ** Concrete hosts and inputs used in the examples *)

(** Python's [re] on the patterns made of an optional leading [^] and
    ordinary characters: [search] looks for the text at the start of the
    string when anchored and anywhere in it otherwise.  Every other pattern
    is outside this fragment and is refused here. *)
Inductive literal_pattern :=
  | Anchored (text : string)
  | Anywhere (text : string).

Definition is_ordinary (c : ascii) : bool :=
  negb (existsb (Ascii.eqb c) (list_ascii_of_string ".^$*+?{}[]\|()")).

Definition literal_compile (p : string) : exn + literal_pattern :=
  let '(anchored, text) :=
    match p with
    | String "^"%char text => (true, text)
    | _ => (false, p)
    end in
  if forallb is_ordinary (list_ascii_of_string text)
  then inr (if anchored then Anchored text else Anywhere text)
  else inl (ReError "pattern outside the literal fragment").

Definition literal_search (p : literal_pattern) (s : string) : bool :=
  match p with
  | Anchored text => String.prefix text s
  | Anywhere text => bool_decide (is_Some (String.index 0 text s))
  end.

Definition LiteralRegex : Regex :=
  {| pattern := literal_pattern;
     re_compile := literal_compile;
     re_search := literal_search |}.

(** Floats that hold whole numbers: their difference is exact and [str]
    prints them with [.0]. *)
Definition WholeFloat : Float :=
  {| pyfloat := Z;
     float_sub := Z.sub;
     float_str := λ x, fmt_d x +:+ ".0" |}.

(** A frame of a plain function: no ['__name__'] global, no ['self']. *)
Definition plain_frame (name : string) (back : option frame) : frame :=
  Frame ∅ ∅ (Code name) back.

(** [main] calls [bar] calls [foo]. *)
Definition main_frame : frame := plain_frame "main" None.
Definition bar_frame : frame := plain_frame "bar" (Some main_frame).
Definition foo_frame : frame := plain_frame "foo" (Some bar_frame).

(** [other] calls [baz]. *)
Definition other_frame : frame := plain_frame "other" None.
Definition baz_frame : frame := plain_frame "baz" (Some other_frame).

(** A method [Worker.step] of module [app], called from the module. *)
Definition module_frame : frame :=
  Frame {["__name__" := "app"]} ∅ (Code "<module>") None.
Definition method_frame : frame :=
  Frame {["__name__" := "app"]}
        {["self" := PyObject (PyClass "Worker") (PyClass "Worker")]}
        (Code "step") (Some module_frame).

(** A frame whose code object was given the empty name
    ([code.replace(co_name='')]), run without a ['__name__'] global. *)
Definition nameless_frame : frame := plain_frame "" None.

(** Code run by [exec(code, {'__name__': 'a;b'})]. *)
Definition semicolon_frame : frame :=
  Frame {["__name__" := "a;b"]} ∅ (Code "<module>") None.

(** A method frame whose [self] reports another class through [__class__]
    than its type: an object with a [__class__] property, or, on Python 2,
    an instance of an old-style class ([type(self)] is [instance]). *)
Definition old_style_frame : frame :=
  Frame {["__name__" := "app"]}
        {["self" := PyObject (PyClass "instance") (PyClass "Worker")]}
        (Code "step") None.

(** Signal number of [SIGVTALRM] on Linux. *)
Definition SIGVTALRM : Z := 26.

(** A process in which nothing was installed yet. *)
Definition fresh_process : @Sampler.process WholeFloat :=
  Sampler.Process (fl := WholeFloat) Sampler.SIG_DFL None [] [].

(** A sampler with interval 5, started on the main thread at time 100. *)
Definition started_world : @Sampler.world WholeFloat :=
  state_of (Sampler.start (fl := WholeFloat) true 100
              (Sampler.World (Sampler.__init__ (fl := WholeFloat) 5) fresh_process)).

Definition started_sampler : @Sampler.t WholeFloat := Sampler.self started_world.

(** That sampler after it saw the stacks [b], [a] and [c], once each, in
    that order, and after it saw them in the order [a], [b], [c]. *)
Definition sampled_bac : @Sampler.t WholeFloat :=
  Sampler._sample SIGVTALRM (Some (plain_frame "c" None))
    (Sampler._sample SIGVTALRM (Some (plain_frame "a" None))
       (Sampler._sample SIGVTALRM (Some (plain_frame "b" None)) started_sampler)).

Definition sampled_abc : @Sampler.t WholeFloat :=
  Sampler._sample SIGVTALRM (Some (plain_frame "c" None))
    (Sampler._sample SIGVTALRM (Some (plain_frame "b" None))
       (Sampler._sample SIGVTALRM (Some (plain_frame "a" None)) started_sampler)).

(** Counts [{"zeta": 1, "alpha": 5}]. *)
Definition zeta_alpha : Dict.t := [("zeta", 1); ("alpha", 5)].

(** ** The vocabulary of the specification *)

(** The enclosing-module qualifier followed by its separator; empty when
    the globals of the frame expose no module name. *)
Definition module_qualifier (f : frame) : string :=
  match f_globals f !! "__name__" with
  | Some name => name +:+ ":"
  | None => ""
  end.

(** The owner-type qualifier followed by its separator; empty when the
    frame has no receiver.  [class_of] is how the class is asked for. *)
Definition owner_qualifier (class_of : pyobject → pyclass) (f : frame) : string :=
  match f_locals f !! "self" with
  | Some o => cls_name (class_of o) +:+ "."
  | None => ""
  end.

(** The names a label is built from. *)
Definition label_names (class_of : pyobject → pyclass) (f : frame) : list string :=
  match f_globals f !! "__name__" with Some name => [name] | None => [] end
  ++ match f_locals f !! "self" with Some o => [cls_name (class_of o)] | None => [] end
  ++ [co_name (f_code f)].

(** No name in any frame of the chain holds the delimiter. *)
Definition delimiter_free (class_of : pyobject → pyclass) (fs : list frame) : bool :=
  forallb (λ f, forallb (λ n, negb (contains semicolon n)) (label_names class_of f)) fs.

(** The receiver, if there is one, names the same class through
    [__class__] as through [type]. *)
Definition same_class_name (f : frame) : Prop :=
  ∀ o, f_locals f !! "self" = Some o → cls_name (ob_class o) = cls_name (ob_type o).


(** The aggregator after the keys [ks] were recorded, in that order. *)
Definition record_all (ks : list string) (d : Dict.t) : Dict.t :=
  fold_left (λ d k, Dict.incr k d) ks d.

(** How often [K] was recorded, and how many different keys were. *)
Definition times_recorded (K : string) (ks : list string) : Z :=
  Z.of_nat (count_occ string_dec ks K).
Definition distinct_keys (ks : list string) : Z :=
  Z.of_nat (size (list_to_set ks : gset string)).

(** The keys the polling sampler records for a snapshot: those of the
    other threads that pass the filter. *)
Definition polled_keys {re : Regex} (flt : option pattern) (my_thread : Z)
    (collapse_recursion : bool) (snapshot : list (Z * frame)) : list string :=
  flat_map
    (λ '(thread_id, frame),
       let entry := create_flamegraph_entry thread_id (Some frame) collapse_recursion in
       if Z.eqb thread_id my_thread then []
       else if match flt with None => true | Some p => re_search p entry end
            then [entry] else [])
    snapshot.

(** What [ProfileThread(fd, 1.0, "^main;")] builds on an empty open file,
    and the same sampler after it counted two stacks. *)
Definition main_filter_thread : @ProfileThread.t LiteralRegex WholeFloat :=
  ProfileThread.Build (re := LiteralRegex) (fl := WholeFloat)
    [] false 1 false (Some (Anchored "main;")) Dict.empty true false false.

Definition counting_thread : @ProfileThread.t LiteralRegex WholeFloat :=
  ProfileThread.set_stats zeta_alpha main_filter_thread.

(** That sampler once its thread was started. *)
Definition started_thread : @ProfileThread.t LiteralRegex WholeFloat :=
  ProfileThread.set_started true counting_thread.

(** The lines [_write_results] and [write_results] write for the counts [d]. *)
Definition key_sorted_lines (d : Dict.t) : list string :=
  map (λ key, stat_line key (Dict.getitem d key))
      (sorted String.leb id false (Dict.keys d)).

(** ** The functions around the samplers *)

(** A live thread as [threading.enumerate()] lists it: [th.ident] and
    [th.getName()]. *)
Record thread := Thread { thread_ident : Z; getName : string }.

(** [get_thread_name(ident)], given the list [threading.enumerate()]
    returns.  [str(ident)] prints the integer in decimal. *)
Fixpoint get_thread_name (enumerate : list thread) (ident : Z) : string :=
  match enumerate with
  | [] => fmt_d ident
  | th :: rest =>
      if Z.eqb (thread_ident th) ident then getName th
      else get_thread_name rest ident
  end.

(** How [join] ends; it assigns nothing. *)
Definition join_outcome {re : Regex} {fl : Float}
    (own_thread : bool) (self : ProfileThread.t) : outcome unit :=
  if negb (ProfileThread._started self)
  then Raised (RuntimeError "cannot join thread before it is started")
  else if own_thread
  then Raised (RuntimeError "cannot join current thread")
  else Returned tt.

(** The keys of [ks] in the order of their first occurrence. *)
Fixpoint first_seen (ks : list string) : list string :=
  match ks with
  | [] => []
  | k :: ks' => k :: List.filter (λ x, negb (String.eqb x k)) (first_seen ks')
  end.

(** [x in l] *)
Definition seen (l : list string) (x : string) : bool := existsb (String.eqb x) l.

(** Every count the aggregator holds is at least one. *)
Definition counts_positive (d : Dict.t) : Prop := List.Forall (λ kv, 1 ≤ snd kv) d.

(** The invariant of an aggregator: one entry per key, each count at least one. *)
Definition good_counts (d : Dict.t) : Prop := Dict.wf d ∧ counts_positive d.

(** The items of a snapshot that belong to other threads. *)
Definition other_threads (my_thread : Z) (snapshot : list (Z * frame)) : list (Z * frame) :=
  List.filter (λ item, negb (Z.eqb (fst item) my_thread)) snapshot.

(** * Properties *)

#[local] Arguments String.append !s1 s2 : simpl nomatch.

(** ** Strings *)

Lemma append_nil_r (s : string) : s +:+ "" = s.
Proof. induction s as [|c s IH]; simpl; [reflexivity | now rewrite IH]. Qed.

Lemma append_assoc (a b c : string) : (a +:+ b) +:+ c = a +:+ (b +:+ c).
Proof. induction a as [|x a IH]; simpl; [reflexivity | now rewrite IH]. Qed.

Lemma append_eq_nil (a b : string) : a +:+ b = "" ↔ a = "" ∧ b = "".
Proof.
  split.
  - destruct a; simpl; [intros ->; split; reflexivity | discriminate].
  - intros [-> ->]; reflexivity.
Qed.

Lemma contains_append (c : ascii) (a b : string) :
  contains c (a +:+ b) = contains c a || contains c b.
Proof.
  induction a as [|x a IH]; simpl; [reflexivity|].
  rewrite IH. now destruct (Ascii.eqb x c).
Qed.

Lemma split_not_nil (sep : ascii) (s : string) : split sep s ≠ [].
Proof.
  induction s as [|c s IH]; simpl; [discriminate|].
  destruct (Ascii.eqb c sep); [discriminate|].
  destruct (split sep s); [contradiction | discriminate].
Qed.

(** A piece without the separator stays in front of the first field. *)
Lemma split_append (sep : ascii) (a r : string) :
  contains sep a = false →
  split sep (a +:+ r) =
    match split sep r with
    | [] => [a]
    | w :: ws => (a +:+ w) :: ws
    end.
Proof.
  induction a as [|c a IH]; simpl; intros Ha.
  - destruct (split sep r) eqn:E; [now apply split_not_nil in E | reflexivity].
  - apply orb_false_iff in Ha as [Hc Ha].
    rewrite Hc, (IH Ha).
    destruct (split sep r) eqn:E; [now apply split_not_nil in E | reflexivity].
Qed.

(** [sep.join(fields).split(sep)] gives the fields back when none of them
    holds the separator and there is at least one. *)
Lemma split_concat (sep : ascii) (fields : list string) :
  fields ≠ [] →
  forallb (λ w, negb (contains sep w)) fields = true →
  split sep (String.concat (String sep "") fields) = fields.
Proof.
  induction fields as [|w ws IH]; [congruence|].
  intros _ Hall. simpl in Hall. apply andb_true_iff in Hall as [Hw Hws].
  apply negb_true_iff in Hw.
  destruct ws as [|w' ws].
  - simpl. rewrite <- (append_nil_r w) at 1.
    rewrite (split_append _ _ _ Hw). simpl. now rewrite append_nil_r.
  - change (String.concat (String sep "") (w :: w' :: ws))
      with (w +:+ String sep (String.concat (String sep "") (w' :: ws))).
    rewrite (split_append _ _ _ Hw).
    cbn [split]. rewrite Ascii.eqb_refl, append_nil_r.
    now rewrite IH.
Qed.

(** ** Frames *)

(** Induction along [f_back], from the root. *)
Lemma frame_back_ind (P : frame → Prop) :
  (∀ f, f_back f = None → P f) →
  (∀ f b, f_back f = Some b → P b → P f) →
  ∀ f, P f.
Proof.
  intros Hroot Hstep. fix IH 1. intros [g l c [b|]].
  - apply (Hstep _ b); [reflexivity | apply IH].
  - apply Hroot. reflexivity.
Qed.

Lemma callers_unfold (f : frame) :
  callers f = f :: match f_back f with None => [] | Some b => callers b end.
Proof. destruct f; reflexivity. Qed.

Lemma extract_stack_loop_spec (f : frame) (lst : list string) :
  extract_stack_loop f lst = lst ++ map frame_label (callers f).
Proof.
  revert lst. induction f as [f Hroot | f b Hback IH] using frame_back_ind; intros lst.
  - destruct f as [g l c back]; simpl in *; subst back. reflexivity.
  - destruct f as [g l c back]; simpl in *; subst back.
    rewrite IH, <- app_assoc. reflexivity.
Qed.

Lemma sample_loop_spec (f : frame) (stack : list string) :
  Sampler._sample_loop f stack = stack ++ map Sampler._format_frame (callers f).
Proof.
  revert stack. induction f as [f Hroot | f b Hback IH] using frame_back_ind; intros stack.
  - destruct f as [g l c back]; simpl in *; subst back. reflexivity.
  - destruct f as [g l c back]; simpl in *; subst back.
    rewrite IH, <- app_assoc. reflexivity.
Qed.

Lemma extract_stack_spec (f : frame) :
  extract_stack (Some f) = map frame_label (rev (callers f)).
Proof.
  unfold extract_stack. rewrite extract_stack_loop_spec. simpl.
  now rewrite map_rev.
Qed.

Lemma sample_key_spec (f : frame) :
  Sampler._sample_key (Some f) =
  String.concat ";" (map Sampler._format_frame (rev (callers f))).
Proof.
  unfold Sampler._sample_key. rewrite sample_loop_spec. simpl.
  now rewrite map_rev.
Qed.

(** C1.  For every frame [f], whose chain of callers [callers f] has at
    least one frame and ends at the root, both formatters produce one label
    per frame of the chain, in the order from the root to [f], and the key
    is these labels joined by [;]. *)
Theorem C1_key_root_to_leaf (f : frame) (thread_id : Z) (collapse_recursion : bool) :
  (1 ≤ length (callers f))%nat
  ∧ extract_stack (Some f) = map frame_label (rev (callers f))
  ∧ length (extract_stack (Some f)) = length (callers f)
  ∧ create_flamegraph_entry thread_id (Some f) collapse_recursion
    = String.concat ";" (map frame_label (rev (callers f)))
  ∧ Sampler._sample_key (Some f)
    = String.concat ";" (map Sampler._format_frame (rev (callers f))).
Proof.
  repeat split.
  - rewrite callers_unfold. simpl. lia.
  - apply extract_stack_spec.
  - rewrite extract_stack_spec. now rewrite length_map, length_rev.
  - unfold create_flamegraph_entry. now rewrite extract_stack_spec.
  - apply sample_key_spec.
Qed.

(** The chain [foo] called by [bar] called by [main] gives [main;bar;foo]. *)
Example key_main_bar_foo :
  map (λ f, co_name (f_code f)) (callers foo_frame) = ["foo"; "bar"; "main"]
  ∧ create_flamegraph_entry 1 (Some foo_frame) false = "main;bar;foo"
  ∧ Sampler._sample_key (Some foo_frame) = "main;bar;foo".
Proof. repeat split; reflexivity. Qed.

(** ** Frame labels *)

Lemma frame_label_parts (f : frame) :
  frame_label f = module_qualifier f +:+ owner_qualifier ob_class f +:+ co_name (f_code f).
Proof.
  unfold frame_label, module_qualifier, owner_qualifier, join_parts.
  destruct (f_globals f !! "__name__") as [name|];
    destruct (f_locals f !! "self") as [o|]; simpl;
    rewrite ?append_assoc; reflexivity.
Qed.

Lemma format_frame_parts (f : frame) :
  Sampler._format_frame f
  = module_qualifier f +:+ owner_qualifier ob_type f +:+ co_name (f_code f).
Proof.
  unfold Sampler._format_frame, module_qualifier, owner_qualifier, join_parts.
  destruct (f_globals f !! "__name__") as [name|];
    destruct (f_locals f !! "self") as [o|]; simpl;
    rewrite ?append_assoc; reflexivity.
Qed.

Lemma module_qualifier_present (f : frame) :
  module_qualifier f ≠ "" ↔ is_Some (f_globals f !! "__name__").
Proof.
  unfold module_qualifier. destruct (f_globals f !! "__name__") as [name|].
  - split; [eauto|]. intros _ E. apply append_eq_nil in E as [_ E]. discriminate.
  - split; [congruence|]. intros [? ?]. discriminate.
Qed.

Lemma owner_qualifier_present (class_of : pyobject → pyclass) (f : frame) :
  owner_qualifier class_of f ≠ "" ↔ is_Some (f_locals f !! "self").
Proof.
  unfold owner_qualifier. destruct (f_locals f !! "self") as [o|].
  - split; [eauto|]. intros _ E. apply append_eq_nil in E as [_ E]. discriminate.
  - split; [congruence|]. intros [? ?]. discriminate.
Qed.

Lemma parts_empty (class_of : pyobject → pyclass) (f : frame) :
  module_qualifier f +:+ owner_qualifier class_of f +:+ co_name (f_code f) = ""
  ↔ f_globals f !! "__name__" = None ∧ f_locals f !! "self" = None
    ∧ co_name (f_code f) = "".
Proof.
  rewrite !append_eq_nil. split.
  - intros (Hm & Ho & Hn). repeat split; [| |exact Hn].
    + destruct (f_globals f !! "__name__") eqn:E; [|reflexivity].
      exfalso. apply (proj2 (module_qualifier_present f)); [rewrite E; eauto | exact Hm].
    + destruct (f_locals f !! "self") eqn:E; [|reflexivity].
      exfalso. apply (proj2 (owner_qualifier_present class_of f)); [rewrite E; eauto | exact Ho].
  - intros (Hm & Ho & Hn). unfold module_qualifier, owner_qualifier.
    rewrite Hm, Ho. auto.
Qed.

(** C2, as amended.  The label of a frame is the module qualifier, then
    the owner-type qualifier, then the name of the code object.  The module
    qualifier is there exactly when the globals hold ['__name__'], the
    owner-type qualifier exactly when the locals hold ['self'].  The name is
    always appended, and it is whatever the code object holds: the label is
    empty exactly when there is no qualifier and that name is empty. *)
Theorem C2_label_parts (f : frame) :
  frame_label f = module_qualifier f +:+ owner_qualifier ob_class f +:+ co_name (f_code f)
  ∧ Sampler._format_frame f
    = module_qualifier f +:+ owner_qualifier ob_type f +:+ co_name (f_code f)
  ∧ (module_qualifier f ≠ "" ↔ is_Some (f_globals f !! "__name__"))
  ∧ (owner_qualifier ob_class f ≠ "" ↔ is_Some (f_locals f !! "self"))
  ∧ (owner_qualifier ob_type f ≠ "" ↔ is_Some (f_locals f !! "self"))
  ∧ (frame_label f = ""
     ↔ f_globals f !! "__name__" = None ∧ f_locals f !! "self" = None
       ∧ co_name (f_code f) = "")
  ∧ (Sampler._format_frame f = ""
     ↔ f_globals f !! "__name__" = None ∧ f_locals f !! "self" = None
       ∧ co_name (f_code f) = "").
Proof.
  split; [apply frame_label_parts|].
  split; [apply format_frame_parts|].
  split; [apply module_qualifier_present|].
  split; [apply owner_qualifier_present|].
  split; [apply owner_qualifier_present|].
  split.
  - rewrite frame_label_parts. apply parts_empty.
  - rewrite format_frame_parts. apply parts_empty.
Qed.

(** C2, as stated, fails where the code object has the empty name: the
    label of [nameless_frame] is empty, so no part of it is a function name
    that is not empty. *)
Lemma C2_name_can_be_empty :
  co_name (f_code nameless_frame) = ""
  ∧ ¬ (∃ qualifiers name : string,
         frame_label nameless_frame = qualifiers +:+ name ∧ name ≠ "")
  ∧ ¬ (∃ qualifiers name : string,
         Sampler._format_frame nameless_frame = qualifiers +:+ name ∧ name ≠ "").
Proof.
  split; [reflexivity|].
  split; intros (q & name & E & Hne); symmetry in E;
    apply append_eq_nil in E as [_ E]; contradiction.
Qed.

Example label_of_method :
  frame_label method_frame = "app:Worker.step"
  ∧ Sampler._format_frame method_frame = "app:Worker.step"
  ∧ frame_label module_frame = "app:<module>"
  ∧ frame_label main_frame = "main".
Proof. repeat split; reflexivity. Qed.

(** ** The delimiter inside labels *)

Lemma label_contains (class_of : pyobject → pyclass) (f : frame) :
  contains semicolon
    (module_qualifier f +:+ owner_qualifier class_of f +:+ co_name (f_code f))
  = existsb (contains semicolon) (label_names class_of f).
Proof.
  unfold module_qualifier, owner_qualifier, label_names.
  destruct (f_globals f !! "__name__") as [name|];
    destruct (f_locals f !! "self") as [o|];
    rewrite ?contains_append; simpl; rewrite ?contains_append; simpl;
    rewrite ?orb_false_r; reflexivity.
Qed.

Lemma forallb_negb_existsb {A} (p : A → bool) (l : list A) :
  forallb (λ x, negb (p x)) l = negb (existsb p l).
Proof.
  induction l as [|x l IH]; simpl; [reflexivity|].
  rewrite IH. now destruct (p x).
Qed.

Lemma delimiter_free_labels (class_of : pyobject → pyclass) (label : frame → string)
    (fs : list frame) :
  (∀ f, label f
        = module_qualifier f +:+ owner_qualifier class_of f +:+ co_name (f_code f)) →
  delimiter_free class_of fs = true →
  forallb (λ w, negb (contains semicolon w)) (map label (rev fs)) = true.
Proof.
  intros Hlabel Hfree. apply forallb_forall. intros w Hw.
  apply in_map_iff in Hw as (f & <- & Hf). apply in_rev in Hf.
  unfold delimiter_free in Hfree. rewrite forallb_forall in Hfree.
  specialize (Hfree f Hf).
  rewrite Hlabel, label_contains, <- forallb_negb_existsb. exact Hfree.
Qed.

Lemma rev_callers_not_nil (f : frame) : rev (callers f) ≠ [].
Proof.
  rewrite callers_unfold. simpl. intros E. now apply app_eq_nil in E as [_ E].
Qed.

(** C9, as amended.  Nothing is escaped: a label holds [;] exactly when
    one of the names it is built from does.  When no name in the chain holds
    [;], splitting the key on [;] gives the labels back, for both samplers. *)
Theorem C9_delimiter_in_labels (f : frame) (thread_id : Z) (collapse_recursion : bool) :
  contains semicolon (frame_label f)
  = existsb (contains semicolon) (label_names ob_class f)
  ∧ contains semicolon (Sampler._format_frame f)
    = existsb (contains semicolon) (label_names ob_type f)
  ∧ (delimiter_free ob_class (callers f) = true →
     split semicolon (create_flamegraph_entry thread_id (Some f) collapse_recursion)
     = extract_stack (Some f))
  ∧ (delimiter_free ob_type (callers f) = true →
     split semicolon (Sampler._sample_key (Some f))
     = map Sampler._format_frame (rev (callers f))).
Proof.
  split; [rewrite frame_label_parts; apply label_contains|].
  split; [rewrite format_frame_parts; apply label_contains|].
  split; intros Hfree.
  - unfold create_flamegraph_entry. rewrite extract_stack_spec.
    apply (split_concat semicolon).
    + intros E. apply map_eq_nil in E. now apply rev_callers_not_nil in E.
    + now apply (delimiter_free_labels ob_class frame_label _ frame_label_parts).
  - rewrite sample_key_spec.
    apply (split_concat semicolon).
    + intros E. apply map_eq_nil in E. now apply rev_callers_not_nil in E.
    + now apply (delimiter_free_labels ob_type Sampler._format_frame _ format_frame_parts).
Qed.

Lemma C9_delimiter_in_labels_witness :
  delimiter_free ob_class (callers foo_frame) = true
  ∧ delimiter_free ob_type (callers method_frame) = true
  ∧ split semicolon (create_flamegraph_entry 1 (Some foo_frame) false)
    = ["main"; "bar"; "foo"]
  ∧ split semicolon (Sampler._sample_key (Some method_frame))
    = ["app:<module>"; "app:Worker.step"].
Proof.
  split; [reflexivity|]. split; [reflexivity|]. split.
  - rewrite (proj1 (proj2 (proj2 (C9_delimiter_in_labels foo_frame 1 false))));
      reflexivity.
  - rewrite (proj2 (proj2 (proj2 (C9_delimiter_in_labels method_frame 1 false))));
      reflexivity.
Defined.

(** C9, as stated, fails: the label of code run under the module name
    [a;b] holds the delimiter, and splitting its key on [;] gives two
    fields for the one frame. *)
Lemma C9_label_with_delimiter :
  frame_label semicolon_frame = "a;b:<module>"
  ∧ Sampler._format_frame semicolon_frame = "a;b:<module>"
  ∧ contains semicolon (frame_label semicolon_frame) = true
  ∧ split semicolon (create_flamegraph_entry 1 (Some semicolon_frame) false)
    = ["a"; "b:<module>"]
  ∧ split semicolon (create_flamegraph_entry 1 (Some semicolon_frame) false)
    ≠ extract_stack (Some semicolon_frame).
Proof. repeat split; try reflexivity. discriminate. Qed.

(** ** The two formatters compared *)

Lemma append_length (a b : string) :
  String.length (a +:+ b) = (String.length a + String.length b)%nat.
Proof. induction a as [|c a IH]; simpl; [reflexivity | now rewrite IH]. Qed.

Lemma append_cancel_l (a b c : string) : a +:+ b = a +:+ c → b = c.
Proof. induction a as [|x a IH]; simpl; [auto | intros [= E]; auto]. Qed.

Lemma append_cancel_r (a b c : string) : a +:+ c = b +:+ c → a = b.
Proof.
  revert b. induction a as [|x a IH]; intros [|y b] E; simpl in E.
  - reflexivity.
  - apply (f_equal String.length) in E. simpl in E. rewrite append_length in E. lia.
  - apply (f_equal String.length) in E. simpl in E. rewrite append_length in E. lia.
  - injection E as -> E. f_equal. now apply IH.
Qed.

Lemma labels_agree_iff (f : frame) :
  frame_label f = Sampler._format_frame f ↔ same_class_name f.
Proof.
  rewrite frame_label_parts, format_frame_parts.
  unfold same_class_name, owner_qualifier.
  destruct (f_locals f !! "self") as [o|].
  - split.
    + intros E o' [= <-].
      apply append_cancel_l, append_cancel_r in E.
      now apply append_cancel_r in E.
    + intros E. now rewrite (E o eq_refl).
  - split; [intros _ o' [=] | reflexivity].
Qed.

(** C10, as amended.  The two formatters give a frame the same label
    exactly when its receiver, if it has one, names the same class through
    [__class__] as through [type]; for a chain of such frames the two
    samplers produce the same key. *)
Theorem C10_formatters_agree (f : frame) :
  (frame_label f = Sampler._format_frame f ↔ same_class_name f)
  ∧ (Forall same_class_name (callers f) →
     ∀ (thread_id : Z) (collapse_recursion : bool),
       create_flamegraph_entry thread_id (Some f) collapse_recursion
       = Sampler._sample_key (Some f)).
Proof.
  split; [apply labels_agree_iff|].
  intros Hall thread_id collapse_recursion.
  unfold create_flamegraph_entry. rewrite extract_stack_spec, sample_key_spec.
  f_equal. apply map_ext_in. intros g Hg. apply labels_agree_iff.
  rewrite List.Forall_forall in Hall. apply Hall. now apply in_rev.
Qed.

Lemma C10_formatters_agree_witness :
  Forall same_class_name (callers method_frame)
  ∧ frame_label method_frame = Sampler._format_frame method_frame
  ∧ create_flamegraph_entry 1 (Some method_frame) false
    = Sampler._sample_key (Some method_frame).
Proof.
  assert (H : Forall same_class_name (callers method_frame)).
  { repeat constructor; intros o; vm_compute; intros [= <-]; reflexivity. }
  split; [exact H|]. split.
  - apply (proj1 (C10_formatters_agree method_frame)).
    now inversion H.
  - exact (proj2 (C10_formatters_agree method_frame) H 1 false).
Defined.

(** C10, as stated, fails: for a receiver whose [__class__] is not its
    type the polling sampler prints the one and the signal-driven sampler
    the other. *)
Lemma C10_labels_differ :
  frame_label old_style_frame = "app:Worker.step"
  ∧ Sampler._format_frame old_style_frame = "app:instance.step"
  ∧ frame_label old_style_frame ≠ Sampler._format_frame old_style_frame
  ∧ create_flamegraph_entry 1 (Some old_style_frame) false
    ≠ Sampler._sample_key (Some old_style_frame).
Proof. repeat split; try reflexivity; discriminate. Qed.

(** ** The aggregator *)

Lemma get_setitem (d : Dict.t) (k k' : string) (v : Z) :
  Dict.get (Dict.setitem d k v) k' = if String.eqb k k' then Some v else Dict.get d k'.
Proof.
  induction d as [|[k0 v0] d IH]; simpl.
  - reflexivity.
  - destruct (String.eqb_spec k0 k) as [->|Hne]; simpl.
    + destruct (String.eqb k k'); reflexivity.
    + rewrite IH. destruct (String.eqb_spec k0 k') as [->|Hne'].
      * destruct (String.eqb_spec k k'); [congruence | reflexivity].
      * reflexivity.
Qed.

Lemma getitem_incr (d : Dict.t) (k k' : string) :
  Dict.getitem (Dict.incr k d) k'
  = if String.eqb k k' then Dict.getitem d k + 1 else Dict.getitem d k'.
Proof.
  unfold Dict.incr, Dict.getitem at 1. rewrite get_setitem.
  destruct (String.eqb k k'); reflexivity.
Qed.

Lemma get_None_keys (d : Dict.t) (k : string) :
  Dict.get d k = None ↔ ¬ In k (Dict.keys d).
Proof.
  induction d as [|[k0 v0] d IH]; simpl.
  - tauto.
  - destruct (String.eqb_spec k0 k) as [->|Hne].
    + split; [discriminate | tauto].
    + rewrite IH. tauto.
Qed.

Lemma keys_setitem (d : Dict.t) (k : string) (v : Z) :
  Dict.keys (Dict.setitem d k v)
  = match Dict.get d k with
    | Some _ => Dict.keys d
    | None => Dict.keys d ++ [k]
    end.
Proof.
  induction d as [|[k0 v0] d IH]; simpl.
  - reflexivity.
  - destruct (String.eqb_spec k0 k) as [->|Hne]; simpl.
    + reflexivity.
    + rewrite IH. now destruct (Dict.get d k).
Qed.

Lemma wf_incr (k : string) (d : Dict.t) : Dict.wf d → Dict.wf (Dict.incr k d).
Proof.
  unfold Dict.wf, Dict.incr. intros Hwf. rewrite keys_setitem.
  destruct (Dict.get d k) eqn:E; [exact Hwf|].
  apply get_None_keys in E.
  apply NoDup_app. repeat split.
  - exact Hwf.
  - intros x Hx Hx'. apply list_elem_of_In in Hx, Hx'.
    destruct Hx' as [<-|[]]. contradiction.
  - apply NoDup_singleton.
Qed.

Lemma key_set_incr (k : string) (d : Dict.t) :
  (list_to_set (Dict.keys (Dict.incr k d)) : gset string)
  = {[k]} ∪ list_to_set (Dict.keys d).
Proof.
  unfold Dict.incr. rewrite keys_setitem.
  destruct (Dict.get d k) eqn:E.
  - assert (Hin : k ∈ Dict.keys d).
    { apply list_elem_of_In. destruct (in_dec string_dec k (Dict.keys d)) as [H|H];
        [exact H|]. apply get_None_keys in H. congruence. }
    apply set_eq. intros x. rewrite elem_of_union, elem_of_singleton, !elem_of_list_to_set.
    split; [tauto|]. intros [->|H]; assumption.
  - rewrite list_to_set_app_L. simpl. set_solver.
Qed.

Lemma sum_from (xs : list Z) (a : Z) : fold_left Z.add xs a = a + sum xs.
Proof.
  unfold sum. revert a. induction xs as [|x xs IH]; intros a; cbn [fold_left]; [lia|].
  rewrite (IH (a + x)), (IH (0 + x)). lia.
Qed.

Lemma sum_cons (x : Z) (xs : list Z) : sum (x :: xs) = x + sum xs.
Proof. unfold sum at 1. simpl. apply sum_from. Qed.

Lemma sum_values_setitem (d : Dict.t) (k : string) (v : Z) :
  sum (Dict.values (Dict.setitem d k v)) = sum (Dict.values d) - Dict.getitem d k + v.
Proof.
  unfold Dict.getitem. induction d as [|[k0 v0] d IH]; simpl.
  - rewrite sum_cons. unfold sum. simpl. lia.
  - destruct (String.eqb_spec k0 k) as [->|Hne]; simpl.
    + rewrite !sum_cons. lia.
    + rewrite !sum_cons, IH. lia.
Qed.

Lemma sum_values_incr (k : string) (d : Dict.t) :
  sum (Dict.values (Dict.incr k d)) = sum (Dict.values d) + 1.
Proof. unfold Dict.incr. rewrite sum_values_setitem. lia. Qed.

Section RecordAll.
Variable ks : list string.

Lemma record_all_wf : ∀ d, Dict.wf d → Dict.wf (record_all ks d).
Proof.
  unfold record_all. induction ks as [|k ks' IH]; intros d Hwf; simpl; [exact Hwf|].
  apply IH, wf_incr, Hwf.
Qed.

Lemma record_all_getitem (K : string) :
  ∀ d, Dict.getitem (record_all ks d) K = Dict.getitem d K + times_recorded K ks.
Proof.
  unfold record_all, times_recorded.
  induction ks as [|k ks' IH]; intros d; simpl; [lia|].
  rewrite IH, getitem_incr.
  destruct (string_dec k K) as [->|Hne].
  - rewrite String.eqb_refl. lia.
  - apply String.eqb_neq in Hne. rewrite Hne. lia.
Qed.

Lemma record_all_key_set :
  ∀ d, (list_to_set (Dict.keys (record_all ks d)) : gset string)
       = list_to_set ks ∪ list_to_set (Dict.keys d).
Proof.
  unfold record_all. induction ks as [|k ks' IH]; intros d; simpl.
  - set_solver.
  - rewrite IH, key_set_incr. set_solver.
Qed.

Lemma record_all_sum :
  ∀ d, sum (Dict.values (record_all ks d))
       = sum (Dict.values d) + Z.of_nat (length ks).
Proof.
  unfold record_all. induction ks as [|k ks' IH]; intros d.
  - simpl. lia.
  - cbn [fold_left length]. rewrite IH, sum_values_incr. lia.
Qed.
End RecordAll.

Lemma record_all_len (ks : list string) :
  Dict.len (record_all ks Dict.empty) = distinct_keys ks.
Proof.
  unfold Dict.len, distinct_keys. f_equal.
  assert (Hwf : Dict.wf (record_all ks Dict.empty)) by (apply record_all_wf; constructor).
  rewrite <- (length_map fst).
  change (map fst (record_all ks Dict.empty)) with (Dict.keys (record_all ks Dict.empty)).
  rewrite <- (size_list_to_set (C := gset string)) by exact Hwf.
  rewrite record_all_key_set. f_equal. set_solver.
Qed.

(** What the aggregator holds after the keys [ks] were recorded into an
    empty one. *)
Lemma aggregator_counts (ks : list string) (K : string) :
  let d := record_all ks Dict.empty in
  Dict.getitem d K = times_recorded K ks
  ∧ Dict.len d = distinct_keys ks
  ∧ sum (Dict.values d) = Z.of_nat (length ks).
Proof.
  cbv zeta. split; [|split].
  - rewrite record_all_getitem. reflexivity.
  - apply record_all_len.
  - rewrite record_all_sum. reflexivity.
Qed.

Lemma record_all_app (ks ks' : list string) (d : Dict.t) :
  record_all (ks ++ ks') d = record_all ks' (record_all ks d).
Proof. unfold record_all. apply fold_left_app. Qed.

Section Recording.
Context {re : Regex} {fl : Float}.

Lemma observe_spec (my_thread : Z) (item : Z * frame) (self : ProfileThread.t) :
  ProfileThread.observe my_thread item self
  = ProfileThread.set_stats
      (record_all
         (polled_keys (ProfileThread._filter self) my_thread
            (ProfileThread._collapse_recursion self) [item])
         (ProfileThread._stats self))
      self.
Proof.
  destruct item as [thread_id frame]. destruct self as [fd w i cr flt st kr ev sd].
  unfold ProfileThread.observe, polled_keys, ProfileThread.filter_accepts. simpl.
  destruct (Z.eqb thread_id my_thread); [reflexivity|].
  destruct flt as [p|]; [destruct (re_search p _)|]; reflexivity.
Qed.

Lemma polled_keys_app (flt : option pattern) (my_thread : Z) (cr : bool)
    (a b : list (Z * frame)) :
  polled_keys flt my_thread cr (a ++ b)
  = polled_keys flt my_thread cr a ++ polled_keys flt my_thread cr b.
Proof. apply flat_map_app. Qed.

Lemma run_iteration_spec (my_thread : Z) (snapshot : list (Z * frame)) :
  ∀ self : ProfileThread.t,
    ProfileThread.run_iteration my_thread snapshot self
    = ProfileThread.set_stats
        (record_all
           (polled_keys (ProfileThread._filter self) my_thread
              (ProfileThread._collapse_recursion self) snapshot)
           (ProfileThread._stats self))
        self.
Proof.
  unfold ProfileThread.run_iteration.
  induction snapshot as [|item rest IH]; intros self.
  - destruct self; reflexivity.
  - cbn [fold_left]. rewrite IH, observe_spec.
    change (item :: rest) with ([item] ++ rest).
    rewrite polled_keys_app, record_all_app. destruct self; reflexivity.
Qed.

Lemma run_loop_spec (my_thread : Z) (snapshots : list (list (Z * frame))) :
  ∀ self : ProfileThread.t,
    ProfileThread._keeprunning self = true →
    ProfileThread.run_loop my_thread snapshots self
    = ProfileThread.set_stats
        (record_all
           (polled_keys (ProfileThread._filter self) my_thread
              (ProfileThread._collapse_recursion self) (concat snapshots))
           (ProfileThread._stats self))
        self.
Proof.
  induction snapshots as [|snapshot rest IH]; intros self Hrun.
  - destruct self; reflexivity.
  - cbn [ProfileThread.run_loop concat]. rewrite Hrun, run_iteration_spec.
    rewrite IH by (destruct self; exact Hrun).
    rewrite polled_keys_app, record_all_app. destruct self; reflexivity.
Qed.

Lemma sample_all_spec (signum : Z) (frames : list (option frame)) :
  ∀ s : Sampler.t,
    Sampler._stack_counts (fold_left (λ s f, Sampler._sample signum f s) frames s)
    = record_all (map Sampler._sample_key frames) (Sampler._stack_counts s).
Proof.
  induction frames as [|f rest IH]; intros s; [reflexivity|].
  cbn [fold_left map]. rewrite IH. destruct s; reflexivity.
Qed.
End Recording.

(** C3.  After any sequence of observations the count the aggregator
    holds for a key is the number of times it was recorded,
    [num_frames(unique=True)] is the number of different keys recorded and
    [num_frames(unique=False)] the number of observations recorded: for the
    polling sampler over the snapshots it ran through, and for the
    signal-driven sampler over the frames it was interrupted in. *)
Theorem C3_counts {re : Regex} {fl : Float}
    (fd : file) (i : pyfloat) (flt : option pattern) (collapse_recursion : bool)
    (started : bool) (my_thread : Z) (snapshots : list (list (Z * frame)))
    (frames : list (option frame)) (K : string) :
  let polling :=
    ProfileThread.run_loop my_thread snapshots
      (ProfileThread.Build fd false i collapse_recursion flt Dict.empty true false
         started) in
  let polled := polled_keys flt my_thread collapse_recursion (concat snapshots) in
  let signalled :=
    fold_left (λ s f, Sampler._sample SIGVTALRM f s) frames (Sampler.__init__ i) in
  let sampled := map Sampler._sample_key frames in
  (Dict.getitem (ProfileThread._stats polling) K = times_recorded K polled
   ∧ ProfileThread.num_frames polling true = distinct_keys polled
   ∧ ProfileThread.num_frames polling false = Z.of_nat (length polled))
  ∧ (Dict.getitem (Sampler._stack_counts signalled) K = times_recorded K sampled
     ∧ Sampler.num_frames signalled true = distinct_keys sampled
     ∧ Sampler.num_frames signalled false = Z.of_nat (length sampled)).
Proof.
  cbv zeta. split.
  - rewrite run_loop_spec by reflexivity.
    unfold ProfileThread.num_frames. cbn [ProfileThread._stats ProfileThread.set_stats
      ProfileThread._filter ProfileThread._collapse_recursion].
    apply aggregator_counts.
  - unfold Sampler.num_frames. rewrite sample_all_spec.
    apply aggregator_counts.
Qed.

Example counts_of_three_samples :
  Sampler.num_frames
    (Sampler._sample SIGVTALRM (Some foo_frame)
       (Sampler._sample SIGVTALRM (Some bar_frame)
          (Sampler._sample SIGVTALRM (Some foo_frame) started_sampler))) true = 2
  ∧ Sampler.num_frames
      (Sampler._sample SIGVTALRM (Some foo_frame)
         (Sampler._sample SIGVTALRM (Some bar_frame)
            (Sampler._sample SIGVTALRM (Some foo_frame) started_sampler))) false = 3
  ∧ Dict.getitem
      (Sampler._stack_counts
         (Sampler._sample SIGVTALRM (Some foo_frame)
            (Sampler._sample SIGVTALRM (Some bar_frame)
               (Sampler._sample SIGVTALRM (Some foo_frame) started_sampler))))
      "main;bar;foo" = 2.
Proof. repeat split; reflexivity. Qed.

(** ** The filter of the polling sampler *)

(** C6.  For an item of the snapshot that belongs to another thread, the
    polling sampler counts the key exactly when no filter is configured or
    the pattern is found in the key; otherwise the sampler is left as it
    was. *)
Theorem C6_filter {re : Regex} {fl : Float}
    (self : ProfileThread.t) (my_thread thread_id : Z) (frame : frame) :
  thread_id ≠ my_thread →
  let entry :=
    create_flamegraph_entry thread_id (Some frame)
      (ProfileThread._collapse_recursion self) in
  let after := ProfileThread.observe my_thread (thread_id, frame) self in
  let passes :=
    ProfileThread._filter self = None
    ∨ ∃ p, ProfileThread._filter self = Some p ∧ re_search p entry = true in
  (passes → after = ProfileThread.set_stats
                      (Dict.incr entry (ProfileThread._stats self)) self)
  ∧ (¬ passes → after = self)
  ∧ (Dict.getitem (ProfileThread._stats after) entry
     = Dict.getitem (ProfileThread._stats self) entry + 1 ↔ passes).
Proof.
  intros Hne. cbv zeta. unfold ProfileThread.observe, ProfileThread.filter_accepts.
  apply Z.eqb_neq in Hne. rewrite Hne.
  set (entry := create_flamegraph_entry _ _ _).
  destruct (ProfileThread._filter self) as [p|] eqn:Hflt.
  - destruct (re_search p entry) eqn:Hs.
    + split; [reflexivity|]. split.
      * intros Hn. exfalso. apply Hn. right. eauto.
      * destruct self; cbn [ProfileThread._stats ProfileThread.set_stats].
        rewrite getitem_incr, String.eqb_refl.
        split; [right; eauto | reflexivity].
    + split; [|split].
      * intros [H|(p' & [= <-] & H)]; congruence.
      * reflexivity.
      * split; [lia|]. intros [H|(p' & [= <-] & H)]; congruence.
  - split; [reflexivity|]. split.
    + intros Hn. exfalso. apply Hn. now left.
    + destruct self; cbn [ProfileThread._stats ProfileThread.set_stats].
      rewrite getitem_incr, String.eqb_refl.
      split; [now left | reflexivity].
Qed.

Lemma C6_filter_witness :
  (2 ≠ 1)
  ∧ ProfileThread.observe 1 (2, bar_frame) main_filter_thread
    = ProfileThread.set_stats [("main;bar", 1)] main_filter_thread.
Proof.
  split; [lia|].
  apply (proj1 (C6_filter main_filter_thread 1 2 bar_frame ltac:(lia))).
  right. exists (Anchored "main;"). split; reflexivity.
Defined.

(** With the filter [^main;], of the stacks [main;bar] and [other;baz]
    only the first is counted. *)
Example filter_main_only :
  ProfileThread.__init__ (re := LiteralRegex) (fl := WholeFloat)
    [] 1 (Some "^main;") false = Returned main_filter_thread
  ∧ create_flamegraph_entry 2 (Some bar_frame) false = "main;bar"
  ∧ create_flamegraph_entry 3 (Some baz_frame) false = "other;baz"
  ∧ ProfileThread._stats
      (ProfileThread.run_iteration 1 [(2, bar_frame); (3, baz_frame); (1, foo_frame)]
         main_filter_thread)
    = [("main;bar", 1)].
Proof. repeat split; reflexivity. Qed.

(** ** Files *)

Lemma closed_app (fd fd' : file) : closed (fd ++ fd') = closed fd || closed fd'.
Proof. apply existsb_app. Qed.

Lemma close_calls_app (fd fd' : file) :
  close_calls (fd ++ fd') = (close_calls fd + close_calls fd')%nat.
Proof. unfold close_calls. now rewrite List.filter_app, length_app. Qed.

Lemma close_calls_open (fd : file) : closed fd = false → close_calls fd = 0%nat.
Proof.
  unfold closed, close_calls. induction fd as [|op fd IH]; simpl; [reflexivity|].
  destruct (is_close op); simpl; [discriminate | exact IH].
Qed.

Lemma close_calls_writes (lines : list string) : close_calls (map FdWrite lines) = 0%nat.
Proof. induction lines as [|l lines IH]; [reflexivity | exact IH]. Qed.

Lemma closed_writes (lines : list string) : closed (map FdWrite lines) = false.
Proof. induction lines as [|l lines IH]; [reflexivity | exact IH]. Qed.

Lemma contents_app (fd fd' : file) : contents (fd ++ fd') = contents fd +:+ contents fd'.
Proof.
  induction fd as [|[s|] fd IH]; simpl; [reflexivity | | exact IH].
  now rewrite IH, append_assoc.
Qed.

Lemma contents_writes (lines : list string) :
  contents (map FdWrite lines) = String.concat "" lines.
Proof.
  induction lines as [|l lines IH]; [reflexivity|].
  simpl. rewrite IH. destruct lines; simpl; [now rewrite append_nil_r | reflexivity].
Qed.

(** Writing lines one after the other to an open file. *)
Lemma write_lines_open {A} (line : A → string) (xs : list A) :
  ∀ fd, closed fd = false →
    for_each xs (λ x, fd_write (line x)) fd
    = (fd ++ map FdWrite (map line xs), Returned tt).
Proof.
  induction xs as [|x xs IH]; intros fd Hopen.
  - simpl. unfold ret. now rewrite app_nil_r.
  - cbn [for_each map]. unfold bind at 1. unfold fd_write at 1. rewrite Hopen.
    rewrite IH by (rewrite closed_app, Hopen; reflexivity).
    now rewrite <- app_assoc.
Qed.

(** ** [stop] of the polling sampler *)

Section Stop.
Context {re : Regex} {fl : Float}.

Lemma write_results_again (self : ProfileThread.t) :
  ProfileThread._written self = true →
  ProfileThread._write_results self = (self, Returned tt).
Proof. intros H. unfold ProfileThread._write_results. now rewrite H. Qed.

Lemma written_after_write_results (self : ProfileThread.t) :
  ProfileThread._written (state_of (ProfileThread._write_results self)) = true.
Proof.
  unfold ProfileThread._write_results.
  destruct (ProfileThread._written self) eqn:Hw; [exact Hw|].
  unfold bind, modify, zoom, state_of.
  cbn [ProfileThread._fd ProfileThread.set_written].
  destruct (for_each _ _ _) as [fd [[]|e]]; reflexivity.
Qed.

Lemma write_results_first (self : ProfileThread.t) :
  ProfileThread._written self = false →
  closed (ProfileThread._fd self) = false →
  ProfileThread._write_results self
  = (ProfileThread.set_fd
       (ProfileThread._fd self
        ++ map FdWrite (key_sorted_lines (ProfileThread._stats self)) ++ [FdClose])
       (ProfileThread.set_written true self),
     Returned tt).
Proof.
  intros Hw Hopen. unfold ProfileThread._write_results. rewrite Hw.
  unfold bind at 1, modify, zoom.
  cbn [ProfileThread._fd ProfileThread.set_written].
  unfold bind. rewrite (write_lines_open _ _ _ Hopen).
  unfold fd_close, key_sorted_lines. now rewrite <- app_assoc.
Qed.

Lemma write_results_flags (self : ProfileThread.t) :
  ProfileThread._keeprunning (state_of (ProfileThread._write_results self))
  = ProfileThread._keeprunning self
  ∧ ProfileThread._stopevent (state_of (ProfileThread._write_results self))
    = ProfileThread._stopevent self.
Proof.
  unfold ProfileThread._write_results.
  destruct (ProfileThread._written self); [split; reflexivity|].
  unfold bind, modify, zoom, state_of.
  destruct (for_each _ _ _) as [fd [[]|e]]; split; reflexivity.
Qed.

Lemma write_results_started (self : ProfileThread.t) :
  ProfileThread._started (state_of (ProfileThread._write_results self))
  = ProfileThread._started self.
Proof.
  unfold ProfileThread._write_results.
  destruct (ProfileThread._written self); [reflexivity|].
  unfold bind, modify, zoom, state_of.
  destruct (for_each _ _ _) as [fd [[]|e]]; reflexivity.
Qed.

Lemma join_spec (own_thread : bool) (self : ProfileThread.t) :
  ProfileThread.join own_thread self = (self, join_outcome own_thread self).
Proof.
  unfold ProfileThread.join, join_outcome, raise, ret.
  destruct (ProfileThread._started self), own_thread; reflexivity.
Qed.

(** [stop] is the flush with the two flags assigned before it and, when
    the flush returns, the [join] after it. *)
Lemma stop_unfold (own_thread : bool) (self : ProfileThread.t) :
  ProfileThread.stop own_thread self
  = let flushed :=
      ProfileThread._write_results
        (ProfileThread.set_stopevent true (ProfileThread.set_keeprunning false self)) in
    (state_of flushed,
     match outcome_of flushed with
     | Returned _ => join_outcome own_thread (state_of flushed)
     | Raised e => Raised e
     end).
Proof.
  unfold ProfileThread.stop, bind, modify. cbv zeta.
  destruct (ProfileThread._write_results _) as [s [[]|e]]; [|reflexivity].
  unfold state_of, outcome_of. cbn [fst snd]. apply join_spec.
Qed.

Lemma stop_state (own_thread : bool) (self : ProfileThread.t) :
  state_of (ProfileThread.stop own_thread self)
  = state_of (ProfileThread._write_results
                (ProfileThread.set_stopevent true
                   (ProfileThread.set_keeprunning false self))).
Proof. rewrite stop_unfold. reflexivity. Qed.

Lemma stop_flags (own_thread : bool) (self : ProfileThread.t) :
  ProfileThread._keeprunning (state_of (ProfileThread.stop own_thread self)) = false
  ∧ ProfileThread._stopevent (state_of (ProfileThread.stop own_thread self)) = true
  ∧ ProfileThread._written (state_of (ProfileThread.stop own_thread self)) = true
  ∧ ProfileThread._started (state_of (ProfileThread.stop own_thread self))
    = ProfileThread._started self.
Proof.
  rewrite stop_state.
  destruct (write_results_flags
    (ProfileThread.set_stopevent true (ProfileThread.set_keeprunning false self)))
    as [-> ->].
  rewrite write_results_started, written_after_write_results.
  destruct self; repeat split; reflexivity.
Qed.

(** A later [stop] finds everything as the first left it and ends as its
    [join] does. *)
Lemma stop_again (own_thread own_thread' : bool) (self : ProfileThread.t) :
  ProfileThread.stop own_thread' (state_of (ProfileThread.stop own_thread self))
  = (state_of (ProfileThread.stop own_thread self),
     join_outcome own_thread' (state_of (ProfileThread.stop own_thread self))).
Proof.
  destruct (stop_flags own_thread self) as (Hk & He & Hw & _).
  set (s1 := state_of (ProfileThread.stop own_thread self)) in *.
  rewrite stop_unfold.
  assert (Hs : ProfileThread.set_stopevent true
                 (ProfileThread.set_keeprunning false s1) = s1).
  { destruct s1; simpl in *; subst; reflexivity. }
  rewrite Hs, (write_results_again _ Hw). reflexivity.
Qed.

Lemma stop_invocations (own_thread : bool) (n : nat) (self : ProfileThread.t) :
  invocations (S n) (ProfileThread.stop own_thread) self
  = (state_of (ProfileThread.stop own_thread self),
     outcome_of (ProfileThread.stop own_thread self)
     :: repeat (join_outcome own_thread (state_of (ProfileThread.stop own_thread self))) n).
Proof.
  revert self. induction n as [|n IH]; intros self.
  - simpl. destruct (ProfileThread.stop own_thread self); reflexivity.
  - change (invocations (S (S n)) (ProfileThread.stop own_thread) self)
      with (let (s', r) := ProfileThread.stop own_thread self in
            let (s'', rs) := invocations (S n) (ProfileThread.stop own_thread) s' in
            (s'', r :: rs)).
    pose proof (stop_again own_thread own_thread self) as E2.
    destruct (ProfileThread.stop own_thread self) as [s1 r1] eqn:E1.
    unfold state_of in E2. cbn [fst] in E2.
    rewrite IH, E2. unfold state_of, outcome_of. cbn [fst snd]. reflexivity.
Qed.

Lemma join_outcome_started (self : ProfileThread.t) :
  ProfileThread._started self = true → join_outcome false self = Returned tt.
Proof. intros H. unfold join_outcome. now rewrite H. Qed.
End Stop.

(** C4, as amended.  The results are written at most once: every [stop]
    after the first leaves the sampler and its file as the first left them,
    and for a sampler that has not written yet and whose file is open the
    first call writes the key-sorted lines once and closes the file, so the
    file has been closed exactly once after any number of calls.  When the
    thread of the sampler was started and [stop] is called from another
    thread, no call after the first raises, and the first does not raise
    either if it found the file open. *)
Theorem C4_stop_idempotent {re : Regex} {fl : Float}
    (self : ProfileThread.t) (own_thread : bool) (n : nat) :
  let once := ProfileThread.stop own_thread self in
  let calls := invocations (S n) (ProfileThread.stop own_thread) self in
  state_of (ProfileThread.stop own_thread (state_of once)) = state_of once
  ∧ fst calls = state_of once
  ∧ (ProfileThread._written self = false →
     closed (ProfileThread._fd self) = false →
     ProfileThread._fd (fst calls)
     = ProfileThread._fd self
       ++ map FdWrite (key_sorted_lines (ProfileThread._stats self)) ++ [FdClose]
     ∧ close_calls (ProfileThread._fd (fst calls)) = 1%nat)
  ∧ (ProfileThread._started self = true →
     own_thread = false →
     ProfileThread.stop own_thread (state_of once) = (state_of once, Returned tt)
     ∧ snd calls = outcome_of once :: repeat (Returned tt) n
     ∧ (ProfileThread._written self = false →
        closed (ProfileThread._fd self) = false →
        outcome_of once = Returned tt)).
Proof.
  cbv zeta. rewrite stop_invocations, stop_again. cbn [fst snd].
  split; [reflexivity|]. split; [reflexivity|]. split.
  - intros Hw Hopen.
    rewrite stop_state, write_results_first by (destruct self; assumption).
    unfold state_of. cbn [fst].
    split; [destruct self; reflexivity|].
    destruct self as [fd w i cr flt st kr ev sd].
    cbn [ProfileThread._fd ProfileThread._stats ProfileThread.set_fd
         ProfileThread.set_written ProfileThread.set_stopevent
         ProfileThread.set_keeprunning] in *.
    rewrite !close_calls_app, close_calls_writes, (close_calls_open _ Hopen).
    reflexivity.
  - intros Hstarted ->.
    assert (Hj : join_outcome false (state_of (ProfileThread.stop false self))
                 = Returned tt).
    { apply join_outcome_started.
      destruct (stop_flags false self) as (_ & _ & _ & ->). exact Hstarted. }
    rewrite Hj. split; [reflexivity|]. split; [reflexivity|].
    intros Hw Hopen.
    rewrite stop_unfold, write_results_first by (destruct self; assumption).
    cbv zeta. unfold outcome_of, state_of. cbn [fst snd].
    apply join_outcome_started. destruct self; exact Hstarted.
Qed.

Lemma C4_stop_idempotent_witness :
  ProfileThread._written started_thread = false
  ∧ closed (ProfileThread._fd started_thread) = false
  ∧ ProfileThread._started started_thread = true
  ∧ contents
      (ProfileThread._fd (fst (invocations 3 (ProfileThread.stop false) started_thread)))
    = "alpha 5" +:+ nl +:+ "zeta 1" +:+ nl
  ∧ close_calls
      (ProfileThread._fd (fst (invocations 3 (ProfileThread.stop false) started_thread)))
    = 1%nat
  ∧ snd (invocations 3 (ProfileThread.stop false) started_thread)
    = [Returned tt; Returned tt; Returned tt].
Proof.
  split; [reflexivity|]. split; [reflexivity|]. split; [reflexivity|].
  destruct (C4_stop_idempotent started_thread false 2)
    as (_ & _ & Hfile & Hquiet).
  destruct (Hfile eq_refl eq_refl) as (Hfd & Hclose).
  destruct (Hquiet eq_refl eq_refl) as (_ & Hcalls & Hfirst).
  split; [rewrite Hfd; reflexivity|]. split; [exact Hclose|].
  rewrite Hcalls, (Hfirst eq_refl eq_refl). reflexivity.
Defined.

(** C4, as stated, fails for a sampler that was built and never started,
    which its constructor has already registered with [atexit]: [stop]
    writes and closes the file and then raises [RuntimeError] from [join],
    and so does the second attempt.  A second [stop] from the sampler's own
    thread raises as well.  And when the file was closed before the first
    [stop] of a sampler that holds keys, the sampler never calls [close]:
    the file is left as it was. *)
Lemma C4_stop_raises_unstarted :
  ProfileThread.__init__ (re := LiteralRegex) (fl := WholeFloat)
    [] 1 (Some "^main;") false = Returned main_filter_thread
  ∧ ProfileThread.stop false main_filter_thread
    = (ProfileThread.set_fd [FdClose]
         (ProfileThread.set_written true
            (ProfileThread.set_stopevent true
               (ProfileThread.set_keeprunning false main_filter_thread))),
       Raised (RuntimeError "cannot join thread before it is started"))
  ∧ outcome_of
      (ProfileThread.stop false (state_of (ProfileThread.stop false main_filter_thread)))
    = Raised (RuntimeError "cannot join thread before it is started")
  ∧ outcome_of
      (ProfileThread.stop false (state_of (ProfileThread.stop false main_filter_thread)))
    ≠ Returned tt
  ∧ outcome_of
      (ProfileThread.stop true (state_of (ProfileThread.stop true started_thread)))
    = Raised (RuntimeError "cannot join current thread")
  ∧ ProfileThread._fd
      (fst (invocations 2 (ProfileThread.stop false)
              (ProfileThread.set_fd [FdClose] started_thread)))
    = [FdClose].
Proof. repeat split; try reflexivity. discriminate. Qed.

(** ** [start] of the signal-driven sampler away from the main thread *)

(** C5.  Called from a thread other than the main one, [start] raises
    [ValueError('Can only sample on the main thread')].  The process is
    left as it was: no handler, no timer, no exit hook, nothing printed; the
    counts and the interval are unchanged, and only [_started] has been
    assigned.  A [stop] after that raises nothing, leaves the timer
    disarmed and changes nothing but the text printed. *)
Theorem C5_start_off_main_thread {fl : Float} (now : pyfloat) (w : Sampler.world) :
  let failed := Sampler.start false now w in
  let stopped := Sampler.stop (state_of failed) in
  outcome_of failed = Raised (ValueError "Can only sample on the main thread")
  ∧ Sampler.proc (state_of failed) = Sampler.proc w
  ∧ Sampler.self (state_of failed) = Sampler.set_started (Some now) (Sampler.self w)
  ∧ Sampler._stack_counts (Sampler.self (state_of failed))
    = Sampler._stack_counts (Sampler.self w)
  ∧ outcome_of stopped = Returned tt
  ∧ Sampler.self (state_of stopped) = Sampler.self (state_of failed)
  ∧ Sampler.itimer_virtual (Sampler.proc (state_of stopped)) = None
  ∧ Sampler.sigvtalrm (Sampler.proc (state_of stopped))
    = Sampler.sigvtalrm (Sampler.proc w)
  ∧ Sampler.atexit_hooks (Sampler.proc (state_of stopped))
    = Sampler.atexit_hooks (Sampler.proc w)
  ∧ Sampler.stdout (Sampler.proc (state_of stopped))
    = Sampler.stdout (Sampler.proc w) ++ ["profiling stopped"].
Proof.
  destruct w as [[i st counts] [h timer hooks out]].
  cbv zeta. repeat split; reflexivity.
Qed.

(** On the main thread [start] installs the handler, arms the timer and
    registers [stop]; a fresh process has none of them. *)
Example start_on_main_thread :
  Sampler.proc started_world
  = Sampler.Process (fl := WholeFloat) Sampler.BoundSample (Some (5, 5))
      [Sampler.BoundStop] ["interval: 5.0"]
  ∧ Sampler.itimer_virtual
      (Sampler.proc
         (state_of (Sampler.start (fl := WholeFloat) false 100
                      (Sampler.World (Sampler.__init__ (fl := WholeFloat) 5) fresh_process))))
    = None.
Proof. split; reflexivity. Qed.

(** ** [sorted] *)

Section SortFacts.
Context {A : Type} (le : A → A → bool).

Let R (x y : A) : Prop := le x y = true.

Lemma insert_sorted_perm (x : A) (l : list A) :
  Permutation (insert_sorted le x l) (x :: l).
Proof.
  induction l as [|y l IH]; simpl; [reflexivity|].
  destruct (le x y); [reflexivity|].
  rewrite IH. apply perm_swap.
Qed.

Lemma sort_with_perm (l : list A) : Permutation (sort_with le l) l.
Proof.
  induction l as [|x l IH]; simpl; [reflexivity|].
  rewrite insert_sorted_perm. now apply perm_skip.
Qed.

Hypothesis le_total : ∀ x y, le x y = true ∨ le y x = true.

Lemma insert_sorted_Sorted (x : A) (l : list A) :
  Sorted R l → Sorted R (insert_sorted le x l).
Proof.
  induction 1 as [|y l Hs IH Hhd]; simpl.
  - repeat constructor.
  - destruct (le x y) eqn:E.
    + constructor; [constructor; assumption | constructor; exact E].
    + constructor; [exact IH|].
      assert (Hyx : R y x) by (destruct (le_total x y); [congruence | assumption]).
      destruct Hhd as [|z l Hyz]; simpl.
      * constructor. exact Hyx.
      * destruct (le x z); constructor; assumption.
Qed.

Lemma sort_with_Sorted (l : list A) : Sorted R (sort_with le l).
Proof.
  induction l as [|x l IH]; simpl; [constructor|].
  now apply insert_sorted_Sorted.
Qed.
End SortFacts.

(** Stability: elements that the order does not tell apart keep the
    order they came in. *)
Lemma sort_with_stable {A} (le : A → A → bool) (P : A → bool) (l : list A) :
  (∀ x y, P x = true → P y = true → le x y = true) →
  List.filter P (sort_with le l) = List.filter P l.
Proof.
  intros Hle.
  assert (Hins : ∀ x l, List.filter P (insert_sorted le x l) = List.filter P (x :: l)).
  { intros x l'. induction l' as [|y l' IH]; [reflexivity|].
    cbn [insert_sorted]. destruct (le x y) eqn:E; [reflexivity|].
    cbn [List.filter]. rewrite IH. cbn [List.filter].
    destruct (P x) eqn:Hx, (P y) eqn:Hy; try reflexivity.
    rewrite (Hle x y Hx Hy) in E. discriminate. }
  induction l as [|x l IH]; [reflexivity|].
  cbn [sort_with foldr]. fold (sort_with le l).
  rewrite Hins. cbn [List.filter]. now rewrite IH.
Qed.

(** Sorting by a key and then taking the keys is sorting the keys. *)
Lemma sort_with_map {A K} (lek : K → K → bool) (key : A → K) (l : list A) :
  map key (sort_with (λ x y, lek (key x) (key y)) l) = sort_with lek (map key l).
Proof.
  assert (Hins : ∀ x l,
    map key (insert_sorted (λ x y, lek (key x) (key y)) x l)
    = insert_sorted lek (key x) (map key l)).
  { intros x l'. induction l' as [|y l' IH]; [reflexivity|].
    simpl. destruct (lek (key x) (key y)); simpl; [reflexivity | now rewrite IH]. }
  induction l as [|x l IH]; [reflexivity|].
  simpl. fold (sort_with (λ x y, lek (key x) (key y)) l).
  rewrite Hins. now rewrite IH.
Qed.

(** ** Order of strings *)

Lemma leb_neq_ltb (a b : string) : String.leb a b = true → a ≠ b → String.ltb a b = true.
Proof.
  unfold String.leb, String.ltb. intros Hle Hne.
  destruct (String.compare a b) eqn:E; [|reflexivity|discriminate].
  apply String.compare_eq_iff in E. contradiction.
Qed.

Lemma Sorted_leb_NoDup_ltb (l : list string) :
  Sorted (λ a b, String.leb a b = true) l → List.NoDup l →
  Sorted (λ a b, String.ltb a b = true) l.
Proof.
  induction 1 as [|a l Hs IH Hhd]; intros Hnd; [constructor|].
  inversion Hnd as [|? ? Hnotin Hnd']; subst.
  constructor; [now apply IH|].
  destruct Hhd as [|b l Hab]; constructor.
  apply leb_neq_ltb; [exact Hab|]. intros ->. apply Hnotin. now left.
Qed.

Lemma Sorted_map {A B} (R : B → B → Prop) (f : A → B) (l : list A) :
  Sorted R (map f l) → Sorted (λ a b, R (f a) (f b)) l.
Proof.
  induction l as [|a l IH]; simpl; intros Hs; [constructor|].
  inversion Hs as [|? ? Hs' Hhd]; subst.
  constructor; [now apply IH|].
  destruct l; simpl in *; constructor. now inversion Hhd.
Qed.

(** ** The key-sorted serialisation *)

(** ['%d'] prints the count in decimal: reading the digits gives it back. *)
Lemma fmt_d_decimal (n : Z) :
  option_map Z.of_int (NilZero.int_of_string (fmt_d n)) = Some n.
Proof.
  unfold fmt_d. rewrite NilZero.isi.
  - simpl. now rewrite DecimalZ.of_to.
  - intros E. pose proof (f_equal Z.of_int E) as H. rewrite DecimalZ.of_to in H.
    subst n. vm_compute in E. discriminate.
  - intros E. pose proof (f_equal Z.of_int E) as H. rewrite DecimalZ.of_to in H.
    subst n. vm_compute in E. discriminate.
Qed.

Lemma getitem_wf (d : Dict.t) (k : string) (v : Z) :
  Dict.wf d → In (k, v) d → Dict.getitem d k = v.
Proof.
  unfold Dict.wf, Dict.getitem. induction d as [|[k0 v0] d IH]; simpl; [tauto|].
  intros Hnd [[= -> ->]|Hin].
  - now rewrite String.eqb_refl.
  - apply NoDup_cons in Hnd as [Hnotin Hnd].
    destruct (String.eqb_spec k0 k) as [->|Hne].
    + exfalso. apply Hnotin. apply list_elem_of_In.
      change k with (fst (k, v)). now apply in_map.
    + now apply IH.
Qed.

Lemma key_sorted_lines_entries (d : Dict.t) :
  Dict.wf d →
  key_sorted_lines d
  = map (λ '(key, count), key +:+ " " +:+ fmt_d count +:+ nl)
        (sorted String.leb fst false (Dict.items d)).
Proof.
  intros Hwf. unfold key_sorted_lines, sorted, Dict.keys, Dict.items.
  change (λ x y : string, String.leb (id x) (id y)) with String.leb.
  rewrite <- (sort_with_map String.leb fst d), map_map.
  apply map_ext_in. intros [k v] Hin. simpl.
  apply (Permutation_in _ (sort_with_perm _ d)) in Hin.
  now rewrite (getitem_wf d k v Hwf Hin).
Qed.

(** C7.  For counts [d] with one entry per key and an open file, both
    writers write one line [key count] for each entry, the count in decimal
    and the line ended by a newline, the entries taken in strictly ascending
    order of their keys; [_write_results] then closes the file. *)
Theorem C7_key_sorted_output {re : Regex} {fl : Float}
    (self : ProfileThread.t) (s : Sampler.t) (d : Dict.t) (fd : file) :
  Dict.wf d →
  closed fd = false →
  let by_key := sorted String.leb fst false (Dict.items d) in
  let lines := map (λ '(key, count), key +:+ " " +:+ fmt_d count +:+ nl) by_key in
  Permutation by_key (Dict.items d)
  ∧ Sorted (λ a b, String.ltb (fst a) (fst b) = true) by_key
  ∧ length lines = length d
  ∧ Sampler.write_results (Sampler.set_stack_counts d s) fd
    = (fd ++ map FdWrite lines, Returned tt)
  ∧ ProfileThread._write_results
      (ProfileThread.set_fd fd
         (ProfileThread.set_written false (ProfileThread.set_stats d self)))
    = (ProfileThread.set_fd (fd ++ map FdWrite lines ++ [FdClose])
         (ProfileThread.set_written true (ProfileThread.set_stats d self)),
       Returned tt)
  ∧ contents (fd ++ map FdWrite lines) = contents fd +:+ String.concat "" lines.
Proof.
  intros Hwf Hopen. cbv zeta.
  rewrite <- (key_sorted_lines_entries d Hwf).
  split; [apply sort_with_perm|].
  split.
  { unfold sorted. apply (Sorted_map (λ a b, String.ltb a b = true) fst).
    rewrite sort_with_map. apply Sorted_leb_NoDup_ltb.
    - apply sort_with_Sorted. apply String.leb_total.
    - apply NoDup_ListNoDup. rewrite (sort_with_perm String.leb). exact Hwf. }
  split.
  { unfold key_sorted_lines, sorted. rewrite length_map.
    rewrite (Permutation_length (sort_with_perm _ _)). apply length_map. }
  split.
  { unfold Sampler.write_results. destruct s; cbn [Sampler._stack_counts Sampler.set_stack_counts].
    apply (write_lines_open (λ key, stat_line key (Dict.getitem d key)) _ _ Hopen). }
  split.
  { rewrite write_results_first by (destruct self; first [reflexivity | exact Hopen]).
    destruct self; reflexivity. }
  now rewrite contents_app, contents_writes.
Qed.

Lemma C7_key_sorted_output_witness :
  Dict.wf zeta_alpha
  ∧ closed [] = false
  ∧ sorted String.leb fst false (Dict.items zeta_alpha) = [("alpha", 5); ("zeta", 1)]
  ∧ contents (fst (Sampler.write_results (Sampler.set_stack_counts zeta_alpha started_sampler) []))
    = "alpha 5" +:+ nl +:+ "zeta 1" +:+ nl
  ∧ ProfileThread._fd (fst (ProfileThread._write_results counting_thread))
    = [FdWrite ("alpha 5" +:+ nl); FdWrite ("zeta 1" +:+ nl); FdClose].
Proof.
  assert (Hwf : Dict.wf zeta_alpha).
  { unfold Dict.wf. simpl. repeat constructor; set_solver. }
  split; [exact Hwf|]. split; [reflexivity|]. split; [reflexivity|].
  destruct (C7_key_sorted_output counting_thread started_sampler zeta_alpha [] Hwf eq_refl)
    as (_ & _ & _ & Hsampler & Hthread & _).
  split.
  - rewrite Hsampler. reflexivity.
  - change counting_thread
      with (ProfileThread.set_fd []
              (ProfileThread.set_written false
                 (ProfileThread.set_stats zeta_alpha counting_thread))).
    rewrite Hthread. reflexivity.
Defined.

(** ** The count-sorted report *)

(** Joining lines with a newline and ending with one is ending each line
    with one. *)
Lemma concat_nl (l : string) (ls : list string) :
  String.concat nl (l :: ls) +:+ nl = String.concat "" (map (λ x, x +:+ nl) (l :: ls)).
Proof.
  revert l. induction ls as [|l' ls IH]; intros l.
  - reflexivity.
  - change (String.concat nl (l :: l' :: ls))
      with (l +:+ nl +:+ String.concat nl (l' :: ls)).
    rewrite !append_assoc, IH.
    cbn [map String.concat]. destruct (map _ ls); simpl;
      rewrite ?append_assoc; reflexivity.
Qed.

Lemma Sorted_weaken {A} (R R' : A → A → Prop) (l : list A) :
  (∀ a b, R a b → R' a b) → Sorted R l → Sorted R' l.
Proof.
  intros Himpl. induction 1 as [|a l Hs IH Hhd]; constructor; [exact IH|].
  destruct Hhd; constructor. now apply Himpl.
Qed.

Lemma Z_leb_total_desc (x y : string * Z) :
  Z.leb (snd y) (snd x) = true ∨ Z.leb (snd x) (snd y) = true.
Proof. destruct (Z.leb_spec (snd y) (snd x)); [now left | right; apply Z.leb_le; lia]. Qed.

(** C8, as amended.  For a started sampler [output_stats] returns the
    line [elapsed] with the time since the start, the line [granularity]
    with the interval, and one line [key count] for each entry of the
    aggregator, the entries taken by descending count.  Entries with equal
    counts stay in the order in which the aggregator holds them, the order
    in which their keys were first recorded. *)
Theorem C8_output_stats {fl : Float} (s : Sampler.t) (started now : pyfloat) :
  Sampler._started s = Some started →
  let ordered := Sampler.ordered_stacks s in
  Sampler.output_stats now s
  = ("elapsed " +:+ float_str (float_sub now started) +:+ nl)
    +:+ ("granularity " +:+ float_str (Sampler.interval s) +:+ nl)
    +:+ String.concat ""
          (map (λ '(key, count), key +:+ " " +:+ fmt_d count +:+ nl) ordered)
  ∧ Permutation ordered (Dict.items (Sampler._stack_counts s))
  ∧ Sorted (λ a b, snd b ≤ snd a) ordered
  ∧ ∀ count : Z,
      List.filter (λ kv, Z.eqb (snd kv) count) ordered
      = List.filter (λ kv, Z.eqb (snd kv) count) (Dict.items (Sampler._stack_counts s)).
Proof.
  intros Hstarted. cbv zeta. split; [|split; [|split]].
  - unfold Sampler.output_stats. rewrite Hstarted.
    cbn [app]. rewrite concat_nl. cbn [map].
    rewrite map_map.
    set (body := map _ (Sampler.ordered_stacks s)).
    set (body' := map _ (Sampler.ordered_stacks s)).
    assert (Hbody : body = body').
    { subst body body'. apply map_ext. intros [key count].
      unfold stat_entry. now rewrite !append_assoc. }
    rewrite Hbody. destruct body'; simpl; rewrite ?append_assoc; simpl;
      rewrite ?append_nil_r; reflexivity.
  - apply sort_with_perm.
  - unfold Sampler.ordered_stacks, sorted.
    eapply Sorted_weaken; [|apply sort_with_Sorted; intros x y; apply Z_leb_total_desc].
    intros a b Hab. cbv beta iota in Hab. now apply Z.leb_le in Hab.
  - intros count. apply sort_with_stable.
    intros x y Hx Hy. apply Z.eqb_eq in Hx, Hy. apply Z.leb_le. lia.
Qed.

Lemma C8_output_stats_witness :
  Sampler._started sampled_bac = Some 100
  ∧ Sampler.output_stats (fl := WholeFloat) 103 sampled_bac
    = "elapsed 3.0" +:+ nl +:+ "granularity 5.0" +:+ nl
      +:+ "b 1" +:+ nl +:+ "a 1" +:+ nl +:+ "c 1" +:+ nl.
Proof.
  split; [reflexivity|].
  rewrite (proj1 (C8_output_stats (fl := WholeFloat) sampled_bac 100 103 eq_refl)). reflexivity.
Defined.

(** C8, as stated, fails on ties.  Two samplers that hold the same
    counts, one for each of [a], [b] and [c], report them in the order in
    which each first saw them: the reports differ, and the first lists [b]
    before [a] before [c], which is no order of the keys. *)
Lemma C8_ties_not_by_key :
  Permutation (Dict.items (Sampler._stack_counts sampled_bac))
              (Dict.items (Sampler._stack_counts sampled_abc))
  ∧ Sampler.ordered_stacks sampled_bac = [("b", 1); ("a", 1); ("c", 1)]
  ∧ Sampler.ordered_stacks sampled_abc = [("a", 1); ("b", 1); ("c", 1)]
  ∧ Sampler.output_stats (fl := WholeFloat) 103 sampled_bac ≠ Sampler.output_stats (fl := WholeFloat) 103 sampled_abc
  ∧ ¬ Sorted (λ a b, String.leb (fst a) (fst b) = true) (Sampler.ordered_stacks sampled_bac)
  ∧ ¬ Sorted (λ a b, String.leb (fst b) (fst a) = true) (Sampler.ordered_stacks sampled_bac).
Proof.
  split; [apply perm_swap|].
  split; [reflexivity|]. split; [reflexivity|].
  split; [vm_compute; discriminate|].
  split; intros Hs.
  - inversion Hs as [|? ? _ Hhd]; subst. inversion Hhd as [|? ? Hba]; subst.
    vm_compute in Hba. discriminate.
  - inversion Hs as [|? ? Hs' _]; subst. inversion Hs' as [|? ? _ Hhd]; subst.
    inversion Hhd as [|? ? Hac]; subst. vm_compute in Hac. discriminate.
Qed.

(** * Further properties of the code *)

(** ** Keys along the stack *)

Lemma concat_snoc (sep : string) (l : list string) (x : string) :
  l ≠ [] → String.concat sep (l ++ [x]) = String.concat sep l +:+ sep +:+ x.
Proof.
  induction l as [|a l IH]; [congruence|]. intros _.
  destruct l as [|b l].
  - reflexivity.
  - change (String.concat sep ((a :: b :: l) ++ [x]))
      with (a +:+ sep +:+ String.concat sep ((b :: l) ++ [x])).
    rewrite IH by discriminate.
    change (String.concat sep (a :: b :: l))
      with (a +:+ sep +:+ String.concat sep (b :: l)).
    now rewrite !append_assoc.
Qed.

Lemma rev_callers_step (f b : frame) :
  f_back f = Some b → rev (callers f) = rev (callers b) ++ [f].
Proof. intros Hb. rewrite (callers_unfold f), Hb. reflexivity. Qed.

Lemma entry_step (f b : frame) (tid tid' : Z) (cr cr' : bool) :
  f_back f = Some b →
  create_flamegraph_entry tid (Some f) cr
  = create_flamegraph_entry tid' (Some b) cr' +:+ ";" +:+ frame_label f.
Proof.
  intros Hb. unfold create_flamegraph_entry.
  rewrite !extract_stack_spec, (rev_callers_step f b Hb), map_app.
  apply concat_snoc. intros E. apply map_eq_nil in E.
  now apply rev_callers_not_nil in E.
Qed.

Lemma sample_key_step (f b : frame) :
  f_back f = Some b →
  Sampler._sample_key (Some f)
  = Sampler._sample_key (Some b) +:+ ";" +:+ Sampler._format_frame f.
Proof.
  intros Hb. rewrite !sample_key_spec, (rev_callers_step f b Hb), map_app.
  apply concat_snoc. intros E. apply map_eq_nil in E.
  now apply rev_callers_not_nil in E.
Qed.

Lemma entry_root (f : frame) (tid : Z) (cr : bool) :
  f_back f = None → create_flamegraph_entry tid (Some f) cr = frame_label f.
Proof.
  intros Hb. unfold create_flamegraph_entry.
  rewrite extract_stack_spec, (callers_unfold f), Hb. reflexivity.
Qed.

Lemma sample_key_root (f : frame) :
  f_back f = None → Sampler._sample_key (Some f) = Sampler._format_frame f.
Proof. intros Hb. rewrite sample_key_spec, (callers_unfold f), Hb. reflexivity. Qed.

(** X1.  The key of a frame that has a caller is the key of the caller,
    then [;], then the label of the frame: a callee's key extends its
    caller's.  This holds for both samplers, whatever thread id and
    [collapse_recursion] are passed. *)
Theorem X1_key_extends_caller (f b : frame) (tid tid' : Z) (cr cr' : bool) :
  f_back f = Some b →
  create_flamegraph_entry tid (Some f) cr
  = create_flamegraph_entry tid' (Some b) cr' +:+ ";" +:+ frame_label f
  ∧ Sampler._sample_key (Some f)
    = Sampler._sample_key (Some b) +:+ ";" +:+ Sampler._format_frame f.
Proof. intros Hb. split; [now apply entry_step | now apply sample_key_step]. Qed.

Lemma X1_key_extends_caller_witness :
  f_back foo_frame = Some bar_frame
  ∧ create_flamegraph_entry 1 (Some foo_frame) false
    = create_flamegraph_entry 2 (Some bar_frame) true +:+ ";" +:+ "foo".
Proof.
  split; [reflexivity|].
  exact (proj1 (X1_key_extends_caller foo_frame bar_frame 1 2 false true eq_refl)).
Defined.

(** X2.  The key is the empty string only when there is no frame at all
    ([None], for which [extract_stack] returns the empty list) or when the
    frame is a root whose label is empty; otherwise it is not empty. *)
Theorem X2_empty_key (frame : option frame) (tid : Z) (cr : bool) :
  extract_stack None = []
  ∧ (create_flamegraph_entry tid frame cr = ""
     ↔ frame = None
       ∨ ∃ f, frame = Some f ∧ f_back f = None ∧ frame_label f = "")
  ∧ (Sampler._sample_key frame = ""
     ↔ frame = None
       ∨ ∃ f, frame = Some f ∧ f_back f = None ∧ Sampler._format_frame f = "").
Proof.
  split; [reflexivity|]. split.
  - destruct frame as [f|]; [|split; [now left | reflexivity]].
    destruct (f_back f) as [b|] eqn:Hb.
    + rewrite (entry_step f b tid tid cr cr Hb). split.
      * intros E. apply append_eq_nil in E as [_ E]. discriminate.
      * intros [E|(g & [= <-] & Hg & _)]; congruence.
    + rewrite (entry_root f tid cr Hb). split.
      * intros E. right. eauto.
      * intros [E|(g & [= <-] & _ & E)]; [discriminate | exact E].
  - destruct frame as [f|]; [|split; [now left | reflexivity]].
    destruct (f_back f) as [b|] eqn:Hb.
    + rewrite (sample_key_step f b Hb). split.
      * intros E. apply append_eq_nil in E as [_ E]. discriminate.
      * intros [E|(g & [= <-] & Hg & _)]; congruence.
    + rewrite (sample_key_root f Hb). split.
      * intros E. right. eauto.
      * intros [E|(g & [= <-] & _ & E)]; [discriminate | exact E].
Qed.

(** ** What sampling changes *)

Section Polling.
Context {re : Regex}.

Lemma polled_keys_length (flt : option pattern) (my_thread : Z) (cr : bool)
    (snapshot : list (Z * frame)) :
  (length (polled_keys flt my_thread cr snapshot)
   ≤ length (other_threads my_thread snapshot))%nat
  ∧ (flt = None →
     length (polled_keys flt my_thread cr snapshot)
     = length (other_threads my_thread snapshot)).
Proof.
  unfold polled_keys, other_threads.
  induction snapshot as [|[thread_id frame] rest [IHle IHeq]]; [split; reflexivity|].
  cbn [flat_map List.filter fst]. rewrite length_app.
  destruct (Z.eqb thread_id my_thread); cbn [negb].
  - split; [exact IHle | exact IHeq].
  - split.
    + destruct flt as [p|]; [destruct (re_search p _)|]; simpl; lia.
    + intros ->. simpl. now rewrite IHeq.
Qed.
End Polling.

Lemma times_recorded_nonneg (K : string) (ks : list string) : 0 ≤ times_recorded K ks.
Proof. unfold times_recorded. lia. Qed.

(** X3.  One pass of the polling loop changes nothing but the counts: the
    file, the flags and the filter stay as they are.  No count goes down.
    The total grows by at most the number of stacks of other threads in the
    snapshot, and by exactly that number when no filter is configured; a
    snapshot that holds only the sampler's own thread changes nothing. *)
Theorem X3_polling_pass {re : Regex} {fl : Float}
    (self : ProfileThread.t) (my_thread : Z) (snapshot : list (Z * frame)) (K : string) :
  let after := ProfileThread.run_iteration my_thread snapshot self in
  let others := Z.of_nat (length (other_threads my_thread snapshot)) in
  after = ProfileThread.set_stats (ProfileThread._stats after) self
  ∧ Dict.getitem (ProfileThread._stats self) K ≤ Dict.getitem (ProfileThread._stats after) K
  ∧ ProfileThread.num_frames self false ≤ ProfileThread.num_frames after false
  ∧ ProfileThread.num_frames after false ≤ ProfileThread.num_frames self false + others
  ∧ (ProfileThread._filter self = None →
     ProfileThread.num_frames after false = ProfileThread.num_frames self false + others)
  ∧ (other_threads my_thread snapshot = [] → after = self).
Proof.
  cbv zeta. rewrite run_iteration_spec.
  set (ks := polled_keys _ _ _ _).
  destruct (polled_keys_length (ProfileThread._filter self) my_thread
              (ProfileThread._collapse_recursion self) snapshot) as [Hle Heq].
  fold ks in Hle, Heq.
  unfold ProfileThread.num_frames.
  destruct self as [fd w i cr flt st kr ev sd].
  cbn [ProfileThread._stats ProfileThread.set_stats ProfileThread._filter] in *.
  split; [reflexivity|].
  split; [rewrite record_all_getitem; pose proof (times_recorded_nonneg K ks); lia|].
  rewrite record_all_sum.
  split; [lia|]. split; [lia|]. split.
  - intros Hflt. rewrite (Heq Hflt). reflexivity.
  - intros Hnone. rewrite Hnone in Hle. simpl in Hle.
    destruct ks; [reflexivity | simpl in Hle; lia].
Qed.

Lemma X3_polling_pass_witness :
  ProfileThread._filter main_filter_thread ≠ None
  ∧ other_threads 1 [(1, foo_frame)] = []
  ∧ ProfileThread.run_iteration 1 [(1, foo_frame)] main_filter_thread = main_filter_thread
  ∧ ProfileThread.num_frames
      (ProfileThread.run_iteration 1 [(2, bar_frame); (3, baz_frame)]
         (ProfileThread.Build (re := LiteralRegex) (fl := WholeFloat)
            [] false 1 false None Dict.empty true false false)) false = 2.
Proof.
  split; [discriminate|]. split; [reflexivity|]. split.
  - exact (proj2 (proj2 (proj2 (proj2 (proj2
      (X3_polling_pass main_filter_thread 1 [(1, foo_frame)] "")))))
      eq_refl).
  - rewrite (proj1 (proj2 (proj2 (proj2 (proj2
      (X3_polling_pass
         (ProfileThread.Build (re := LiteralRegex) (fl := WholeFloat)
            [] false 1 false None Dict.empty true false false)
         1 [(2, bar_frame); (3, baz_frame)] "")))))
      eq_refl).
    reflexivity.
Defined.

(** ** Invariants of the aggregator *)

Lemma getitem_nonneg (d : Dict.t) (k : string) :
  counts_positive d → 0 ≤ Dict.getitem d k.
Proof.
  unfold counts_positive, Dict.getitem. induction d as [|[k0 v0] d IH]; simpl; [lia|].
  intros Hpos. inversion Hpos as [|? ? Hv Hd]; subst. simpl in Hv.
  destruct (String.eqb k0 k); simpl; [lia | now apply IH].
Qed.

Lemma positive_setitem (d : Dict.t) (k : string) (v : Z) :
  counts_positive d → 1 ≤ v → counts_positive (Dict.setitem d k v).
Proof.
  unfold counts_positive. intros Hpos Hv.
  induction d as [|[k0 v0] d IH]; simpl.
  - repeat constructor. exact Hv.
  - inversion Hpos as [|? ? Hv0 Hd]; subst.
    destruct (String.eqb k0 k); constructor; auto.
Qed.

Lemma positive_incr (k : string) (d : Dict.t) :
  counts_positive d → counts_positive (Dict.incr k d).
Proof.
  intros Hpos. apply positive_setitem; [exact Hpos|].
  pose proof (getitem_nonneg d k Hpos). lia.
Qed.

Lemma record_all_positive (ks : list string) :
  ∀ d, counts_positive d → counts_positive (record_all ks d).
Proof.
  unfold record_all. induction ks as [|k ks IH]; intros d Hpos; simpl; [exact Hpos|].
  apply IH, positive_incr, Hpos.
Qed.

Lemma len_le_sum (d : Dict.t) : counts_positive d → Dict.len d ≤ sum (Dict.values d).
Proof.
  unfold counts_positive, Dict.len. induction d as [|[k v] d IH]; intros Hpos.
  - reflexivity.
  - inversion Hpos as [|? ? Hv Hd]; subst. simpl in Hv.
    cbn [Dict.values map snd length]. rewrite sum_cons.
    specialize (IH Hd). unfold Dict.values in IH. lia.
Qed.

Section Invariant.
Context {re : Regex} {fl : Float}.

Lemma record_all_good (ks : list string) (d : Dict.t) :
  good_counts d → good_counts (record_all ks d).
Proof.
  intros [Hwf Hpos]. split; [now apply record_all_wf | now apply record_all_positive].
Qed.

Lemma run_loop_good (my_thread : Z) (snapshots : list (list (Z * frame))) :
  ∀ self : ProfileThread.t,
    good_counts (ProfileThread._stats self) →
    good_counts (ProfileThread._stats (ProfileThread.run_loop my_thread snapshots self)).
Proof.
  induction snapshots as [|snapshot rest IH]; intros self Hgood; [exact Hgood|].
  cbn [ProfileThread.run_loop]. destruct (ProfileThread._keeprunning self); [|exact Hgood].
  apply IH. rewrite run_iteration_spec. destruct self.
  cbn [ProfileThread._stats ProfileThread.set_stats ProfileThread._filter
       ProfileThread._collapse_recursion] in *.
  now apply record_all_good.
Qed.
End Invariant.

(** X4.  Both samplers keep the aggregator well formed: if it holds one
    entry per key and every count is at least one, which is so for the empty
    aggregator a constructor builds, then the same holds after any run of
    the polling loop and after any number of samples, and the number of
    unique stacks is never above the total: [0 <= num_frames(True) <=
    num_frames(False)]. *)
Theorem X4_counts_invariant {re : Regex} {fl : Float}
    (self : ProfileThread.t) (my_thread : Z) (snapshots : list (list (Z * frame)))
    (s : Sampler.t) (signum : Z) (frames : list (option frame)) :
  good_counts (ProfileThread._stats self) →
  good_counts (Sampler._stack_counts s) →
  let polling := ProfileThread.run_loop my_thread snapshots self in
  let signalled := fold_left (λ s f, Sampler._sample signum f s) frames s in
  good_counts (ProfileThread._stats polling)
  ∧ 0 ≤ ProfileThread.num_frames polling true ≤ ProfileThread.num_frames polling false
  ∧ good_counts (Sampler._stack_counts signalled)
  ∧ 0 ≤ Sampler.num_frames signalled true ≤ Sampler.num_frames signalled false.
Proof.
  intros Hself Hs. cbv zeta.
  assert (Hp : good_counts (ProfileThread._stats
                 (ProfileThread.run_loop my_thread snapshots self)))
    by now apply run_loop_good.
  assert (Hg : good_counts (Sampler._stack_counts
                 (fold_left (λ s f, Sampler._sample signum f s) frames s)))
    by (rewrite sample_all_spec; now apply record_all_good).
  unfold ProfileThread.num_frames, Sampler.num_frames.
  split; [exact Hp|]. split.
  { split; [unfold Dict.len; lia | apply len_le_sum, Hp]. }
  split; [exact Hg|].
  split; [unfold Dict.len; lia | apply len_le_sum, Hg].
Qed.

Lemma X4_counts_invariant_witness :
  good_counts (ProfileThread._stats main_filter_thread)
  ∧ good_counts (Sampler._stack_counts started_sampler)
  ∧ Sampler.num_frames
      (fold_left (λ s f, Sampler._sample SIGVTALRM f s)
         [Some foo_frame; Some bar_frame; Some foo_frame] started_sampler) true
    ≤ Sampler.num_frames
        (fold_left (λ s f, Sampler._sample SIGVTALRM f s)
           [Some foo_frame; Some bar_frame; Some foo_frame] started_sampler) false.
Proof.
  assert (H0 : good_counts []) by (split; constructor).
  split; [exact H0|]. split; [exact H0|].
  exact (proj2 (proj2 (proj2 (proj2 (X4_counts_invariant
    main_filter_thread 1 [] started_sampler SIGVTALRM
    [Some foo_frame; Some bar_frame; Some foo_frame] H0 H0))))).
Defined.

(** ** The order of the keys in the aggregator *)

Lemma filter_filter {A} (p q : A → bool) (l : list A) :
  List.filter p (List.filter q l) = List.filter (λ x, q x && p x) l.
Proof.
  induction l as [|x l IH]; simpl; [reflexivity|].
  destruct (q x); simpl; [destruct (p x)|]; now rewrite IH.
Qed.

Lemma seen_keys (d : Dict.t) (k : string) :
  seen (Dict.keys d) k = bool_decide (is_Some (Dict.get d k)).
Proof.
  unfold seen. induction d as [|[k0 v0] d IH]; simpl.
  - reflexivity.
  - rewrite String.eqb_sym. destruct (String.eqb k0 k); simpl; [reflexivity | exact IH].
Qed.

Lemma record_all_keys (ks : list string) :
  ∀ d, Dict.keys (record_all ks d)
       = Dict.keys d ++ List.filter (λ x, negb (seen (Dict.keys d) x)) (first_seen ks).
Proof.
  unfold record_all. induction ks as [|k ks IH]; intros d.
  - simpl. now rewrite app_nil_r.
  - cbn [fold_left first_seen List.filter]. rewrite IH.
    unfold Dict.incr at 1 2. rewrite keys_setitem.
    rewrite (seen_keys d k). rewrite filter_filter.
    destruct (Dict.get d k) as [v|] eqn:E.
    + rewrite bool_decide_eq_true_2 by eauto. cbn [negb]. f_equal.
      apply List.filter_ext. intros x.
      destruct (String.eqb_spec x k) as [->|Hne]; cbn [negb andb]; [|reflexivity].
      rewrite (seen_keys d k), bool_decide_eq_true_2 by eauto. reflexivity.
    + rewrite bool_decide_eq_false_2 by (intros [? ?]; congruence). cbn [negb].
      rewrite <- app_assoc. cbn [app]. do 2 f_equal.
      apply List.filter_ext. intros x. unfold seen. rewrite existsb_app.
      cbn [existsb]. rewrite orb_false_r, negb_orb. apply andb_comm.
Qed.

Lemma filter_all {A} (p : A → bool) (l : list A) :
  (∀ x, p x = true) → List.filter p l = l.
Proof.
  intros Hp. induction l as [|x l IH]; simpl; [reflexivity|].
  now rewrite Hp, IH.
Qed.

Lemma record_all_keys_empty (ks : list string) :
  Dict.keys (record_all ks Dict.empty) = first_seen ks.
Proof. rewrite record_all_keys. simpl. now apply filter_all. Qed.

(** X5.  The aggregator of either sampler lists its keys in the order in
    which they were first recorded: a key seen again keeps its place, a new
    key goes to the end.  This is the order [output_stats] falls back on
    for equal counts. *)
Theorem X5_keys_in_first_seen_order {re : Regex} {fl : Float}
    (fd : file) (i : pyfloat) (flt : option pattern) (collapse_recursion : bool)
    (started : bool) (my_thread : Z) (snapshots : list (list (Z * frame)))
    (signum : Z) (frames : list (option frame)) :
  Dict.keys
    (ProfileThread._stats
       (ProfileThread.run_loop my_thread snapshots
          (ProfileThread.Build fd false i collapse_recursion flt Dict.empty true false
         started)))
  = first_seen (polled_keys flt my_thread collapse_recursion (concat snapshots))
  ∧ Dict.keys
      (Sampler._stack_counts
         (fold_left (λ s f, Sampler._sample signum f s) frames (Sampler.__init__ i)))
    = first_seen (map Sampler._sample_key frames).
Proof.
  split.
  - rewrite run_loop_spec by reflexivity.
    cbn [ProfileThread._stats ProfileThread.set_stats ProfileThread._filter
         ProfileThread._collapse_recursion].
    apply record_all_keys_empty.
  - rewrite sample_all_spec. apply record_all_keys_empty.
Qed.

Example keys_of_repeated_samples :
  Dict.keys
    (Sampler._stack_counts
       (fold_left (λ s f, Sampler._sample SIGVTALRM f s)
          [Some bar_frame; Some foo_frame; Some bar_frame; Some main_frame]
          started_sampler))
  = ["main;bar"; "main;bar;foo"; "main"].
Proof. reflexivity. Qed.

(** ** [run] and [stop] of the polling sampler together *)

Section RunStop.
Context {re : Regex} {fl : Float}.

Lemma run_loop_stopped (my_thread : Z) (snapshots : list (list (Z * frame)))
    (self : ProfileThread.t) :
  ProfileThread._keeprunning self = false →
  ProfileThread.run_loop my_thread snapshots self = self.
Proof. intros H. destruct snapshots; simpl; [reflexivity | now rewrite H]. Qed.

Lemma sorted_keys_not_nil (d : Dict.t) :
  d ≠ [] → sorted String.leb id false (Dict.keys d) ≠ [].
Proof.
  intros Hd E. apply Hd.
  pose proof (Permutation_length (sort_with_perm
    (λ x y, String.leb (id x) (id y)) (Dict.keys d))) as Hlen.
  unfold sorted in E. rewrite E in Hlen. simpl in Hlen.
  unfold Dict.keys in Hlen. rewrite length_map in Hlen.
  destruct d; [reflexivity | discriminate].
Qed.

Lemma write_lines_closed {A} (line : A → string) (x : A) (xs : list A) (fd : file) :
  closed fd = true →
  for_each (x :: xs) (λ x, fd_write (line x)) fd
  = (fd, Raised (ValueError "I/O operation on closed file.")).
Proof.
  intros Hc. cbn [for_each]. unfold bind, fd_write. now rewrite Hc.
Qed.

Lemma write_results_closed (self : ProfileThread.t) :
  ProfileThread._written self = false →
  closed (ProfileThread._fd self) = true →
  ProfileThread._stats self ≠ [] →
  ProfileThread._write_results self
  = (ProfileThread.set_written true self,
     Raised (ValueError "I/O operation on closed file.")).
Proof.
  intros Hw Hc Hd. unfold ProfileThread._write_results. rewrite Hw.
  destruct (sorted String.leb id false (Dict.keys (ProfileThread._stats self)))
    as [|k ks] eqn:E; [now apply sorted_keys_not_nil in E|].
  unfold bind at 1, modify, zoom.
  cbn [ProfileThread._fd ProfileThread.set_written].
  unfold bind at 1. rewrite (write_lines_closed _ k ks _ Hc).
  destruct self; reflexivity.
Qed.
End RunStop.

(** X7.  Once [stop] has cleared the flag and flushed, the sampler thread
    still finishes the pass it is in: the stacks left in that pass are
    counted in [_stats], but the file is not touched.  The loop of [run] is
    then left without another pass, whatever snapshots would follow, and
    the flush at the end of [run] writes nothing: stacks counted after the
    flush of [stop] never reach the file. *)
Theorem X7_run_after_stop {re : Regex} {fl : Float}
    (self : ProfileThread.t) (own_thread : bool) (my_thread : Z)
    (pending : list (Z * frame)) (snapshots : list (list (Z * frame))) :
  let stopped := state_of (ProfileThread.stop own_thread self) in
  let finished := ProfileThread.run_iteration my_thread pending stopped in
  finished
  = ProfileThread.set_stats
      (record_all
         (polled_keys (ProfileThread._filter self) my_thread
            (ProfileThread._collapse_recursion self) pending)
         (ProfileThread._stats self))
      stopped
  ∧ ProfileThread._fd finished = ProfileThread._fd stopped
  ∧ ProfileThread.run my_thread snapshots finished = Some (finished, Returned tt).
Proof.
  cbv zeta.
  destruct (stop_flags own_thread self) as (Hk & _ & Hw & _).
  assert (Hkeep : ProfileThread._filter (state_of (ProfileThread.stop own_thread self))
                  = ProfileThread._filter self
                  ∧ ProfileThread._collapse_recursion
                      (state_of (ProfileThread.stop own_thread self))
                    = ProfileThread._collapse_recursion self
                  ∧ ProfileThread._stats (state_of (ProfileThread.stop own_thread self))
                    = ProfileThread._stats self).
  { rewrite stop_state. unfold ProfileThread._write_results.
    destruct self as [fd w i cr flt st kr ev sd].
    cbn [ProfileThread._written ProfileThread.set_stopevent
         ProfileThread.set_keeprunning].
    destruct w; [repeat split; reflexivity|].
    unfold bind, modify, zoom, state_of.
    destruct (for_each _ _ _) as [fd' [[]|e]]; repeat split; reflexivity. }
  destruct Hkeep as (Hflt & Hcr & Hst).
  rewrite run_iteration_spec, Hflt, Hcr, Hst.
  set (stopped := state_of (ProfileThread.stop own_thread self)) in *.
  split; [reflexivity|]. split; [destruct stopped; reflexivity|].
  unfold ProfileThread.run.
  rewrite run_loop_stopped by (destruct stopped; exact Hk).
  assert (Hk' : ProfileThread._keeprunning
                  (ProfileThread.set_stats
                     (record_all
                        (polled_keys (ProfileThread._filter self) my_thread
                           (ProfileThread._collapse_recursion self) pending)
                        (ProfileThread._stats self)) stopped) = false)
    by (destruct stopped; exact Hk).
  rewrite Hk'. f_equal. apply write_results_again. destruct stopped; exact Hw.
Qed.

(** X8.  If the file is already closed when a sampler that holds at least
    one key flushes for the first time, [stop] raises [ValueError] without
    writing anything, yet marks the results as written: the next [stop]
    writes nothing either, and, for a sampler whose thread was started and
    a call from another thread, returns normally; the counts are never
    written. *)
Theorem X8_flush_to_closed_file {re : Regex} {fl : Float}
    (self : ProfileThread.t) (own_thread own_thread' : bool) :
  ProfileThread._written self = false →
  closed (ProfileThread._fd self) = true →
  ProfileThread._stats self ≠ [] →
  let failed := ProfileThread.stop own_thread self in
  outcome_of failed = Raised (ValueError "I/O operation on closed file.")
  ∧ ProfileThread._fd (state_of failed) = ProfileThread._fd self
  ∧ ProfileThread._written (state_of failed) = true
  ∧ ProfileThread._stats (state_of failed) = ProfileThread._stats self
  ∧ state_of (ProfileThread.stop own_thread' (state_of failed)) = state_of failed
  ∧ (ProfileThread._started self = true →
     ProfileThread.stop false (state_of failed) = (state_of failed, Returned tt)).
Proof.
  intros Hw Hc Hd. cbv zeta.
  assert (E : ProfileThread.stop own_thread self
              = (ProfileThread.set_written true
                   (ProfileThread.set_stopevent true
                      (ProfileThread.set_keeprunning false self)),
                 Raised (ValueError "I/O operation on closed file."))).
  { rewrite stop_unfold, write_results_closed by (destruct self; assumption).
    reflexivity. }
  split; [rewrite E; reflexivity|].
  split; [rewrite E; destruct self; reflexivity|].
  split; [rewrite E; destruct self; reflexivity|].
  split; [rewrite E; destruct self; reflexivity|].
  split; [rewrite stop_again; reflexivity|].
  intros Hstarted. rewrite stop_again. f_equal.
  apply join_outcome_started.
  destruct (stop_flags own_thread self) as (_ & _ & _ & ->). exact Hstarted.
Qed.

Lemma X8_flush_to_closed_file_witness :
  ProfileThread._written (ProfileThread.set_fd [FdClose] started_thread) = false
  ∧ closed [FdClose] = true
  ∧ ProfileThread._stats (ProfileThread.set_fd [FdClose] started_thread) ≠ []
  ∧ ProfileThread._started (ProfileThread.set_fd [FdClose] started_thread) = true
  ∧ outcome_of (ProfileThread.stop false (ProfileThread.set_fd [FdClose] started_thread))
    = Raised (ValueError "I/O operation on closed file.")
  ∧ ProfileThread._fd
      (state_of (ProfileThread.stop false (ProfileThread.set_fd [FdClose] started_thread)))
    = [FdClose]
  ∧ outcome_of
      (ProfileThread.stop false
         (state_of (ProfileThread.stop false
                      (ProfileThread.set_fd [FdClose] started_thread))))
    = Returned tt.
Proof.
  split; [reflexivity|]. split; [reflexivity|]. split; [discriminate|].
  split; [reflexivity|].
  destruct (X8_flush_to_closed_file (ProfileThread.set_fd [FdClose] started_thread)
              false false eq_refl eq_refl ltac:(discriminate))
    as (Hout & Hfd & _ & _ & _ & Hnext).
  split; [exact Hout|]. split; [exact Hfd|].
  rewrite (Hnext eq_refl). reflexivity.
Defined.

(** X9.  A sampler that holds no key still closes its file on the first
    flush: nothing is written, [close] is called once, and no exception is
    raised even if the file was closed before. *)
Theorem X9_flush_without_keys {re : Regex} {fl : Float} (self : ProfileThread.t) :
  ProfileThread._written self = false →
  ProfileThread._stats self = [] →
  ProfileThread._write_results self
  = (ProfileThread.set_fd (ProfileThread._fd self ++ [FdClose])
       (ProfileThread.set_written true self),
     Returned tt)
  ∧ contents (ProfileThread._fd (state_of (ProfileThread._write_results self)))
    = contents (ProfileThread._fd self)
  ∧ close_calls (ProfileThread._fd (state_of (ProfileThread._write_results self)))
    = S (close_calls (ProfileThread._fd self)).
Proof.
  intros Hw Hd.
  assert (E : ProfileThread._write_results self
              = (ProfileThread.set_fd (ProfileThread._fd self ++ [FdClose])
                   (ProfileThread.set_written true self), Returned tt)).
  { unfold ProfileThread._write_results. rewrite Hw, Hd. destruct self; reflexivity. }
  rewrite E. split; [reflexivity|]. unfold state_of. cbn [fst].
  destruct self as [fd w i cr flt st kr ev sd]. cbn [ProfileThread._fd ProfileThread.set_fd].
  rewrite contents_app, close_calls_app. simpl.
  split; [apply append_nil_r|].
  change (close_calls [FdClose]) with 1%nat. lia.
Qed.

Lemma X9_flush_without_keys_witness :
  ProfileThread._written main_filter_thread = false
  ∧ ProfileThread._stats main_filter_thread = []
  ∧ ProfileThread._fd (state_of (ProfileThread._write_results main_filter_thread))
    = [FdClose].
Proof.
  split; [reflexivity|]. split; [reflexivity|].
  rewrite (proj1 (X9_flush_without_keys main_filter_thread eq_refl eq_refl)).
  reflexivity.
Defined.

(** ** [write_results] of the signal-driven sampler *)

(** X10.  [Sampler.write_results] is not write-once and never closes the
    file: on an open file it appends the key-sorted lines, as many as
    [num_frames(unique=True)], leaves the file open, and a second call
    appends the same lines again. *)
Theorem X10_write_results_repeats {fl : Float} (s : Sampler.t) (fd : file) :
  closed fd = false →
  let lines := key_sorted_lines (Sampler._stack_counts s) in
  let once := Sampler.write_results s fd in
  once = (fd ++ map FdWrite lines, Returned tt)
  ∧ closed (state_of once) = false
  ∧ close_calls (state_of once) = close_calls fd
  ∧ Z.of_nat (length lines) = Sampler.num_frames s true
  ∧ Sampler.write_results s (state_of once)
    = (fd ++ map FdWrite lines ++ map FdWrite lines, Returned tt).
Proof.
  intros Hopen. cbv zeta.
  assert (E : Sampler.write_results s fd
              = (fd ++ map FdWrite (key_sorted_lines (Sampler._stack_counts s)),
                 Returned tt)).
  { apply (write_lines_open
             (λ key, stat_line key (Dict.getitem (Sampler._stack_counts s) key)) _ _ Hopen). }
  assert (Hopen' : closed (fd ++ map FdWrite (key_sorted_lines (Sampler._stack_counts s)))
                   = false)
    by (rewrite closed_app, Hopen, closed_writes; reflexivity).
  rewrite E. unfold state_of. cbn [fst].
  split; [reflexivity|]. split; [exact Hopen'|].
  split; [rewrite close_calls_app, close_calls_writes; lia|].
  split.
  - unfold key_sorted_lines, sorted, Sampler.num_frames, Dict.len, Dict.keys.
    rewrite length_map, (Permutation_length (sort_with_perm _ _)), length_map.
    reflexivity.
  - unfold Sampler.write_results.
    rewrite (write_lines_open
               (λ key, stat_line key (Dict.getitem (Sampler._stack_counts s) key))
               _ _ Hopen').
    now rewrite <- app_assoc.
Qed.

Lemma X10_write_results_repeats_witness :
  closed [] = false
  ∧ contents
      (fst (Sampler.write_results (Sampler.set_stack_counts zeta_alpha started_sampler)
              (fst (Sampler.write_results
                      (Sampler.set_stack_counts zeta_alpha started_sampler) []))))
    = "alpha 5" +:+ nl +:+ "zeta 1" +:+ nl +:+ "alpha 5" +:+ nl +:+ "zeta 1" +:+ nl.
Proof.
  split; [reflexivity|].
  destruct (X10_write_results_repeats
              (Sampler.set_stack_counts zeta_alpha started_sampler) [] eq_refl)
    as (_ & _ & _ & _ & Htwice).
  unfold state_of in Htwice. rewrite Htwice. reflexivity.
Defined.

(** X11.  On a file that is already closed [Sampler.write_results] writes
    nothing; it raises [ValueError] when the sampler holds at least one key
    and returns normally when it holds none. *)
Theorem X11_write_results_closed {fl : Float} (s : Sampler.t) (fd : file) :
  closed fd = true →
  state_of (Sampler.write_results s fd) = fd
  ∧ (Sampler._stack_counts s = [] →
     outcome_of (Sampler.write_results s fd) = Returned tt)
  ∧ (Sampler._stack_counts s ≠ [] →
     outcome_of (Sampler.write_results s fd)
     = Raised (ValueError "I/O operation on closed file.")).
Proof.
  intros Hc. unfold Sampler.write_results.
  destruct (sorted String.leb id false (Dict.keys (Sampler._stack_counts s)))
    as [|k ks] eqn:E.
  - split; [reflexivity|]. split; [reflexivity|].
    intros Hd. now apply sorted_keys_not_nil in E.
  - rewrite (write_lines_closed _ k ks _ Hc).
    split; [reflexivity|]. split; [|reflexivity].
    intros Hd. rewrite Hd in E. discriminate.
Qed.

Lemma X11_write_results_closed_witness :
  closed [FdClose] = true
  ∧ Sampler.write_results (Sampler.set_stack_counts zeta_alpha started_sampler) [FdClose]
    = ([FdClose], Raised (ValueError "I/O operation on closed file."))
  ∧ Sampler.write_results started_sampler [FdClose] = ([FdClose], Returned tt).
Proof.
  split; [reflexivity|].
  destruct (X11_write_results_closed
              (Sampler.set_stack_counts zeta_alpha started_sampler) [FdClose] eq_refl)
    as (Hfd & _ & Hraised).
  destruct (X11_write_results_closed started_sampler [FdClose] eq_refl)
    as (Hfd' & Hret & _).
  split.
  - destruct (Sampler.write_results _ [FdClose]) as [fd out] eqn:E in Hfd, Hraised |- *.
    unfold state_of, outcome_of in *. cbn [fst snd] in *.
    rewrite Hfd, (Hraised ltac:(discriminate)). reflexivity.
  - destruct (Sampler.write_results started_sampler [FdClose]) as [fd out].
    unfold state_of, outcome_of in *. cbn [fst snd] in *.
    rewrite Hfd', (Hret eq_refl). reflexivity.
Defined.

(** ** [start], [stop] and [reset] of the signal-driven sampler *)

(** X12.  On the main thread [start] returns normally with the handler
    installed, the timer armed with the interval as delay and period, one
    more [stop] registered for exit, and the start time set; it does not
    clear the counts.  A [stop] after it disarms the timer only: the
    handler stays installed, the exit hook stays registered and the sampler
    keeps its counts and its start time. *)
Theorem X12_start_then_stop {fl : Float} (now : pyfloat) (w : Sampler.world) :
  let started := Sampler.start true now w in
  let stopped := Sampler.stop (state_of started) in
  let i := Sampler.interval (Sampler.self w) in
  outcome_of started = Returned tt
  ∧ Sampler.self (state_of started) = Sampler.set_started (Some now) (Sampler.self w)
  ∧ Sampler._stack_counts (Sampler.self (state_of started))
    = Sampler._stack_counts (Sampler.self w)
  ∧ Sampler.proc (state_of started)
    = Sampler.Process Sampler.BoundSample (Some (i, i))
        (Sampler.atexit_hooks (Sampler.proc w) ++ [Sampler.BoundStop])
        (Sampler.stdout (Sampler.proc w) ++ ["interval: " +:+ float_str i])
  ∧ outcome_of stopped = Returned tt
  ∧ Sampler.self (state_of stopped) = Sampler.self (state_of started)
  ∧ Sampler.proc (state_of stopped)
    = Sampler.Process Sampler.BoundSample None
        (Sampler.atexit_hooks (Sampler.proc w) ++ [Sampler.BoundStop])
        (Sampler.stdout (Sampler.proc w)
         ++ ["interval: " +:+ float_str i] ++ ["profiling stopped"]).
Proof.
  destruct w as [[i st counts] [h timer hooks out]].
  cbv zeta. repeat split; try reflexivity.
  unfold state_of; simpl. now rewrite <- app_assoc.
Qed.

Lemma stop_unfold_sampler {fl : Float} (w : Sampler.world) :
  Sampler.stop w
  = (Sampler.World (Sampler.self w)
       (Sampler.Process (Sampler.sigvtalrm (Sampler.proc w)) None
          (Sampler.atexit_hooks (Sampler.proc w))
          (Sampler.stdout (Sampler.proc w) ++ ["profiling stopped"])),
     Returned tt).
Proof. destruct w as [s [h timer hooks out]]. reflexivity. Qed.

Lemma stop_invocations_sampler {fl : Float} (n : nat) :
  ∀ w : Sampler.world,
    invocations n Sampler.stop w
    = (Sampler.World (Sampler.self w)
         (Sampler.Process (Sampler.sigvtalrm (Sampler.proc w))
            match n with
            | O => Sampler.itimer_virtual (Sampler.proc w)
            | S _ => None
            end
            (Sampler.atexit_hooks (Sampler.proc w))
            (Sampler.stdout (Sampler.proc w) ++ repeat "profiling stopped" n)),
       repeat (Returned tt) n).
Proof.
  induction n as [|n IH]; intros w.
  - destruct w as [s [h timer hooks out]]. simpl. now rewrite app_nil_r.
  - cbn [invocations]. rewrite stop_unfold_sampler, IH.
    cbn [Sampler.self Sampler.proc Sampler.sigvtalrm Sampler.itimer_virtual
         Sampler.atexit_hooks Sampler.stdout repeat].
    rewrite <- app_assoc. cbn [app]. now destruct n.
Qed.

(** X13.  [Sampler.stop] never raises and may be called any number of
    times (by hand, by [__del__], by the exit hook): each call prints one
    line; after the first the timer is disarmed and stays so; the handler,
    the exit hooks and the sampler with its counts are never touched. *)
Theorem X13_stop_any_number {fl : Float} (n : nat) (w : Sampler.world) :
  let after := invocations n Sampler.stop w in
  snd after = repeat (Returned tt) n
  ∧ Sampler.self (fst after) = Sampler.self w
  ∧ Sampler.sigvtalrm (Sampler.proc (fst after)) = Sampler.sigvtalrm (Sampler.proc w)
  ∧ Sampler.atexit_hooks (Sampler.proc (fst after)) = Sampler.atexit_hooks (Sampler.proc w)
  ∧ Sampler.stdout (Sampler.proc (fst after))
    = Sampler.stdout (Sampler.proc w) ++ repeat "profiling stopped" n
  ∧ Sampler.itimer_virtual (Sampler.proc (fst after))
    = match n with
      | O => Sampler.itimer_virtual (Sampler.proc w)
      | S _ => None
      end
  ∧ invocations n Sampler.__del__ w = after.
Proof.
  cbv zeta. rewrite stop_invocations_sampler. repeat split.
  unfold Sampler.__del__. apply stop_invocations_sampler.
Qed.

(** X14.  [reset] empties the aggregator and restarts the clock without
    changing the interval: both counts of [num_frames] are zero, the report
    is its two header lines with the time elapsed since the reset, and what
    is sampled afterwards is counted from zero, whatever was counted
    before. *)
Theorem X14_reset {fl : Float} (s : Sampler.t) (now later : pyfloat)
    (signum : Z) (frames : list (option frame)) (K : string) :
  let fresh := Sampler.reset now s in
  let resumed := fold_left (λ s f, Sampler._sample signum f s) frames fresh in
  Sampler.interval fresh = Sampler.interval s
  ∧ Sampler.num_frames fresh true = 0
  ∧ Sampler.num_frames fresh false = 0
  ∧ Sampler.output_stats later fresh
    = ("elapsed " +:+ float_str (float_sub later now) +:+ nl)
      +:+ ("granularity " +:+ float_str (Sampler.interval s) +:+ nl)
  ∧ Dict.getitem (Sampler._stack_counts resumed) K
    = times_recorded K (map Sampler._sample_key frames)
  ∧ Sampler.num_frames resumed false = Z.of_nat (length frames).
Proof.
  cbv zeta. split; [reflexivity|]. split; [reflexivity|]. split; [reflexivity|].
  split.
  - unfold Sampler.output_stats, Sampler.reset, Sampler.ordered_stacks.
    cbn. now rewrite !append_assoc.
  - unfold Sampler.num_frames. rewrite sample_all_spec.
    cbn [Sampler.reset Sampler._stack_counts].
    destruct (aggregator_counts (map Sampler._sample_key frames) K) as (Hget & _ & Hsum).
    split; [exact Hget|]. rewrite Hsum. now rewrite length_map.
Qed.

Lemma prefix_append (p r : string) : String.prefix p (p +:+ r) = true.
Proof.
  induction p as [|a p IH]; simpl; [now destruct r|].
  destruct (ascii_dec a a); [exact IH | contradiction].
Qed.

(** X15.  [output_stats] returns the empty string exactly when the
    sampler was never started nor reset; once [_started] is set, which a
    failed [start] away from the main thread also does, the report begins
    with the [elapsed] line. *)
Theorem X15_output_stats_empty {fl : Float} (s : Sampler.t) (now : pyfloat)
    (t0 : pyfloat) (w : Sampler.world) :
  (Sampler.output_stats now s = "" ↔ Sampler._started s = None)
  ∧ Sampler.output_stats now (Sampler.__init__ (Sampler.interval s)) = ""
  ∧ String.prefix "elapsed "
      (Sampler.output_stats now (Sampler.self (state_of (Sampler.start false t0 w))))
    = true.
Proof.
  split; [|split].
  - unfold Sampler.output_stats. destruct (Sampler._started s) as [started|].
    + split; [|discriminate]. intros E. apply append_eq_nil in E as [_ E]. discriminate.
    + split; reflexivity.
  - reflexivity.
  - destruct w as [[i st counts] [h timer hooks out]].
    unfold state_of. cbn [Sampler.start]. unfold Sampler.output_stats.
    cbn [fst Sampler.self Sampler._started Sampler.start bind modify zoom
         Sampler.set_self Sampler.set_started Sampler.reraise_ValueError
         Sampler.signal_signal raise Sampler.proc Sampler.set_proc
         Sampler.interval].
    cbn [app]. rewrite concat_nl. cbn [map String.concat].
    rewrite !append_assoc. apply prefix_append.
Qed.

(** ** [get_thread_name] *)

(** X16.  [get_thread_name] returns the name of the first live thread
    that has the identifier, and the identifier printed in decimal when no
    live thread has it. *)
Theorem X16_get_thread_name (enumerate : list thread) (ident : Z) :
  (∃ before th after,
     enumerate = before ++ th :: after
     ∧ List.Forall (λ t, thread_ident t ≠ ident) before
     ∧ thread_ident th = ident
     ∧ get_thread_name enumerate ident = getName th)
  ∨ (List.Forall (λ t, thread_ident t ≠ ident) enumerate
     ∧ get_thread_name enumerate ident = fmt_d ident).
Proof.
  induction enumerate as [|th rest IH].
  - right. split; [constructor | reflexivity].
  - cbn [get_thread_name]. destruct (Z.eqb_spec (thread_ident th) ident) as [E|Hne].
    + left. exists [], th, rest. repeat split; [constructor | exact E].
    + destruct IH as [(before & th' & after & -> & Hb & Hid & Hname)|[Hall Hname]].
      * left. exists (th :: before), th', after.
        repeat split; [constructor; assumption | exact Hid | exact Hname].
      * right. split; [constructor; assumption | exact Hname].
Qed.

Example thread_names :
  get_thread_name [Thread 7 "MainThread"; Thread 9 "worker"; Thread 9 "late"] 9 = "worker"
  ∧ get_thread_name [Thread 7 "MainThread"; Thread 9 "worker"] 12 = "12"
  ∧ get_thread_name [] (-3) = "-3".
Proof. repeat split; reflexivity. Qed.
